(** * djtu-wiki: the MNIST training and conversion scripts

    A shallow embedding of the three scripts of the repository

      - docs/jobs/ai/mnist.py
      - docs/jobs/ai/convert_model.py
      - scripts/train_mnist_model.py

    Each script is a straight-line sequence of calls into NumPy, Keras,
    TensorFlow.js and the Python runtime ([print], [os.makedirs]).  The
    scripts are embedded as programs of a state-and-exception monad over
    a [world] (process inputs, working-directory tree, standard output,
    hidden library state, and a ghost log of the calls made).  The
    third-party libraries are an interface ([Keras]); theorems quantify
    over every implementation of it. *)

From Stdlib Require Import ZArith String Ascii List Bool.
From Stdlib Require Import Floats.SpecFloat.
From Stdlib Require QArith Qabs.
From stdpp Require Import base option list gmap strings fin_maps.

Local Open Scope Z_scope.
Local Open Scope string_scope.

(** ** NumPy float32 *)

(** IEEE 754 binary32: 24 bits of significand, infinities at exponent 128. *)
Module F32.

Definition prec : Z := 24.
Definition emax : Z := 128.

Definition t : Type := spec_float.

(** [astype('float32')] on one integer element. *)
Definition of_Z (n : Z) : t := binary_normalize prec emax n 0 false.

(** [/] on float32 operands, round to nearest even. *)
Definition div (x y : t) : t := SFdiv prec emax x y.

Definition leb (x y : t) : bool := SFleb x y.

Definition zero : t := S754_zero false.
Definition one : t := of_Z 1.

End F32.

(** ** Arrays *)

(** The image arrays have three axes (sample, row, column); the label
    arrays have one. *)
Definition ndarray3 (A : Type) : Type := list (list (list A)).

Definition nd_map {A B : Type} (f : A -> B) (a : ndarray3 A) : ndarray3 B :=
  map (map (map f)) a.

(** Every element of a three-axis array satisfies [P]. *)
Definition nd_Forall {A : Type} (P : A -> Prop) (a : ndarray3 A) : Prop :=
  Forall (Forall (Forall P)) a.

(** [x.astype('float32')] *)
Definition np_astype_float32 (a : ndarray3 Z) : ndarray3 F32.t :=
  nd_map F32.of_Z a.

(** [x / d] with [x] a float32 array and [d] a Python float: NumPy keeps
    the array's dtype, so the scalar is taken as a float32 and the
    division is the float32 one, element by element. *)
Definition np_truediv (a : ndarray3 F32.t) (d : F32.t) : ndarray3 F32.t :=
  nd_map (fun x => F32.div x d) a.

(** The literal [255.0]. *)
Definition lit_255 : F32.t := F32.of_Z 255.

(** What lines 13-14 of mnist.py (9-10 of train_mnist_model.py) do to one
    pixel. *)
Definition preprocess_pixel (p : Z) : F32.t := F32.div (F32.of_Z p) lit_255.

Definition in_unit_interval (x : F32.t) : Prop :=
  F32.leb F32.zero x = true /\ F32.leb x F32.one = true.

(** The literal [0.2] of the [Dropout] layers is a Python float (binary64). *)
Module F64.
Definition t : Type := spec_float.
Definition of_Z (n : Z) : t := binary_normalize 53 1024 n 0 false.
Definition div (x y : t) : t := SFdiv 53 1024 x y.
End F64.

Definition lit_0_2 : F64.t := F64.div (F64.of_Z 2) (F64.of_Z 10).

(** ** Python runtime: exceptions, paths, the directory tree *)

Inductive exn : Type :=
  | FileExistsError (filename : string)
  | FileNotFoundError (filename : string)
  | NotADirectoryError (filename : string)
  | RecursionError
  | LibraryError (message : string).

Definition is_FileExistsError (e : exn) : bool :=
  match e with FileExistsError _ => true | _ => false end.

Definition blob : Type := list Byte.byte.

Inductive node : Type :=
  | Dir
  | File (content : blob).

(** The tree below the working directory, keyed by normalised relative
    path ([a/b/c], no trailing separator).  The working directory itself
    is the empty path and always exists. *)
Abbreviation fsys := (gmap string node).

Definition sep : ascii := "/"%char.

(** [p.rfind('/') + 1] as a cut: [Some (p[:i], p[i:])] when [p] holds a
    separator, [None] when it holds none (then [i = 0]). *)
Fixpoint cut_last_sep (p : string) : option (string * string) :=
  match p with
  | EmptyString => None
  | String c r =>
      match cut_last_sep r with
      | Some (h, t) => Some (String c h, t)
      | None => if Ascii.eqb c sep then Some (String c EmptyString, r) else None
      end
  end.

Fixpoint all_sep (s : string) : bool :=
  match s with
  | EmptyString => true
  | String c r => Ascii.eqb c sep && all_sep r
  end.

(** [s.rstrip('/')] *)
Fixpoint rstrip_sep (s : string) : string :=
  match s with
  | EmptyString => EmptyString
  | String c r =>
      match rstrip_sep r with
      | EmptyString => if Ascii.eqb c sep then EmptyString else String c EmptyString
      | r' => String c r'
      end
  end.

(** [posixpath.split] *)
Definition path_split (p : string) : string * string :=
  let '(head, tail) :=
    match cut_last_sep p with
    | Some ht => ht
    | None => (EmptyString, p)
    end in
  if negb (String.eqb head EmptyString) && negb (all_sep head)
  then (rstrip_sep head, tail)
  else (head, tail).

Definition path_exists (f : fsys) (p : string) : bool :=
  if String.eqb p EmptyString then true else bool_decide (is_Some (f !! p)).

Definition path_isdir (f : fsys) (p : string) : bool :=
  if String.eqb p EmptyString then true
  else match f !! p with Some Dir => true | _ => false end.

(** [os.mkdir]: the parent must be a directory and the name must be free.
    These are the failures the tree itself causes; failures of the
    device or of permissions are not modelled, so nothing below is
    derived from their absence. *)
Definition os_mkdir (name : string) (f : fsys) : exn + fsys :=
  if path_exists f name then inl (FileExistsError name)
  else
    let parent := fst (path_split name) in
    if path_isdir f parent then inr (<[name := Dir]> f)
    else if path_exists f parent then inl (NotADirectoryError name)
    else inl (FileNotFoundError name).

(** The last statement of [os.makedirs]:
    [try: mkdir(name) except OSError: if not exist_ok or not isdir(name): raise]. *)
Definition try_mkdir (name : string) (exist_ok : bool) (f : fsys) : exn + fsys :=
  match os_mkdir name f with
  | inr f' => inr f'
  | inl e => if negb exist_ok || negb (path_isdir f name) then inl e else inr f
  end.

(** [os.makedirs(name, exist_ok=...)], after CPython's [os.py]: create the
    missing ancestors first (an ancestor that turns out to exist is not an
    error), then the leaf; an [OSError] from the leaf's [mkdir] is
    swallowed only when [exist_ok] is set and the leaf is a directory.
    The recursion is on the head of the path, which is shorter than the
    path; [fuel] bounds it. *)
Fixpoint makedirs_rec (fuel : nat) (name : string) (exist_ok : bool) (f : fsys)
  : exn + fsys :=
  match fuel with
  | O => inl RecursionError
  | S fuel' =>
      let '(head, tail) := path_split name in
      let '(head, tail) :=
        if String.eqb tail EmptyString then path_split head else (head, tail) in
      if negb (String.eqb head EmptyString) && negb (String.eqb tail EmptyString)
         && negb (path_exists f head)
      then
        match makedirs_rec fuel' head exist_ok f with
        | inr f' =>
            if String.eqb tail "." then inr f' else try_mkdir name exist_ok f'
        | inl e =>
            if is_FileExistsError e
            then (if String.eqb tail "." then inr f
                  else try_mkdir name exist_ok f)
            else inl e
        end
      else try_mkdir name exist_ok f
  end.

Definition os_makedirs (name : string) (exist_ok : bool) (f : fsys) : exn + fsys :=
  makedirs_rec (S (String.length name)) name exist_ok f.

(** ** Keras layers, as the scripts construct them *)

Inductive layer : Type :=
  | Input (shape : list Z)
  | Reshape (target_shape : list Z)
  | Conv2D (filters : Z) (kernel_size : Z * Z) (activation : string) (padding : string)
  | MaxPooling2D (pool_size : Z * Z)
  | Flatten (input_shape : option (list Z))
  | Dense (units : Z) (activation : string)
  | Dropout (rate : F64.t).

(** [((x_train, y_train), (x_test, y_test))] as [mnist.load_data()]
    returns it: uint8 images and uint8 labels. *)
Definition dataset : Type :=
  (ndarray3 Z * list Z) * (ndarray3 Z * list Z).

(** ** The third-party libraries

    TensorFlow/Keras, NumPy and TensorFlow.js are not part of the
    repository.  They are an interface: every operation the scripts call,
    acting on a hidden library state [LState] (model objects, random
    generator, dataset cache, network) and, for the three operations that
    take a path, on the directory tree.  An operation may raise. *)
Record Keras : Type := {
  Model : Type;
  LState : Type;
  tf_version : string;
  np_version : string;
  tfjs_version : string;
  (** [tf.keras.datasets.mnist.load_data()] *)
  load_data : LState -> (exn + dataset) * LState;
  (** [tf.keras.Sequential(layers)] *)
  Sequential : list layer -> LState -> (exn + Model) * LState;
  (** [model.compile(optimizer=, loss=, metrics=)] *)
  compile : Model -> string -> string -> list string ->
            LState -> (exn + unit) * LState;
  (** [model.fit(x, y, epochs=, batch_size=, validation_data=)] *)
  fit : Model -> ndarray3 F32.t -> list Z -> Z -> option Z ->
        option (ndarray3 F32.t * list Z) ->
        LState -> (exn + unit) * LState;
  (** [model.save(filepath)] *)
  save : Model -> string -> fsys * LState -> (exn + unit) * (fsys * LState);
  (** [tf.keras.models.load_model(filepath)]: reads the tree *)
  load_model : string -> fsys * LState -> (exn + Model) * LState;
  (** [tfjs.converters.save_keras_model(model, artifacts_dir)] *)
  save_keras_model : Model -> string ->
                     fsys * LState -> (exn + unit) * (fsys * LState);
  (** the HDF5 serialisation of a model object in a library state *)
  h5_bytes : LState -> Model -> blob;
  (** the topology descriptor the converter derives from a model *)
  topology_json : LState -> Model -> blob;
  (** the weight-data files (name, content) the converter derives from a
      model: one per shard of its weights *)
  weight_files : LState -> Model -> list (string * blob)
}.

Definition newline : string := String (ascii_of_nat 10) EmptyString.

Section Scripts.

Context (K : Keras).

(** *** The ghost log: one entry per call, in execution order *)

Inductive call : Type :=
  | CPrint (line : string)
  | CLoadData
  | CAstype (a : ndarray3 Z) (dtype : string)
  | CTrueDiv (a : ndarray3 F32.t) (d : F32.t)
  | CSequential (layers : list layer)
  | CCompile (m : Model K) (optimizer loss : string) (metrics : list string)
  | CFit (m : Model K) (x : ndarray3 F32.t) (y : list Z) (epochs : Z)
         (batch_size : option Z)
         (validation_data : option (ndarray3 F32.t * list Z))
  | CMakedirs (name : string) (exist_ok : bool)
  | CSave (m : Model K) (filepath : string)
  | CLoadModel (filepath : string)
  | CSaveKerasModel (m : Model K) (artifacts_dir : string).

Record entry : Type := Entry {
  what : call;
  raised : option exn
}.

(** *** The world of one run *)

Record world : Type := World {
  argv : list string;               (* sys.argv *)
  environ : gmap string string;     (* os.environ *)
  fs : fsys;                        (* the tree below the working directory *)
  stdout : list string;             (* what was written, oldest first *)
  lib : LState K;
  log : list entry
}.

Definition set_fs_lib (w : world) (fl : fsys * LState K) : world :=
  World (argv w) (environ w) (fst fl) (stdout w) (snd fl) (log w).

Definition set_lib (w : world) (l : LState K) : world :=
  World (argv w) (environ w) (fs w) (stdout w) l (log w).

Definition set_fs (w : world) (f : fsys) : world :=
  World (argv w) (environ w) f (stdout w) (lib w) (log w).

Definition add_stdout (w : world) (s : string) : world :=
  World (argv w) (environ w) (fs w) (stdout w ++ [s]) (lib w) (log w).

Definition add_log (w : world) (e : entry) : world :=
  World (argv w) (environ w) (fs w) (stdout w) (lib w) (log w ++ [e]).

Definition set_inputs (w : world) (a : list string) (e : gmap string string)
  : world :=
  World a e (fs w) (stdout w) (lib w) (log w).

(** *** The monad: state, and an exception that ends the run *)

Definition M (A : Type) : Type := world -> (exn + A) * world.

Definition ret {A : Type} (a : A) : M A := fun w => (inr a, w).

Definition bind {A B : Type} (c : M A) (k : A -> M B) : M B :=
  fun w =>
    match c w with
    | (inr a, w') => k a w'
    | (inl e, w') => (inl e, w')
    end.

Definition outcome {A : Type} (r : exn + A) : option exn :=
  match r with inl e => Some e | inr _ => None end.

(** Run [op] and append its entry to the log. *)
Definition logged {A : Type} (c : call) (op : M A) : M A :=
  fun w => let '(r, w') := op w in (r, add_log w' (Entry c (outcome r))).

(** An operation on the hidden library state. *)
Definition on_lib {A : Type} (op : LState K -> (exn + A) * LState K) : M A :=
  fun w => let '(r, l) := op (lib w) in (r, set_lib w l).

(** An operation on the tree and the hidden library state. *)
Definition on_fs_lib {A : Type}
    (op : fsys * LState K -> (exn + A) * (fsys * LState K)) : M A :=
  fun w => let '(r, fl) := op (fs w, lib w) in (r, set_fs_lib w fl).

#[local] Instance M_ret : MRet M := @ret.
#[local] Instance M_bind : MBind M := fun A B k c => bind c k.

(** *** The calls the scripts make *)

(** [print(a, b, ...)]: the arguments separated by a space, then a
    newline. *)
Definition print (args : list string) : M unit :=
  let line := String.concat " " args ++ newline in
  logged (CPrint line) (fun w => (inr tt, add_stdout w line)).

Definition mnist_load_data : M dataset :=
  logged CLoadData (on_lib (load_data K)).

(** [a.astype('float32')] *)
Definition astype_float32 (a : ndarray3 Z) : M (ndarray3 F32.t) :=
  logged (CAstype a "float32") (mret (np_astype_float32 a)).

(** [a / d] *)
Definition truediv (a : ndarray3 F32.t) (d : F32.t) : M (ndarray3 F32.t) :=
  logged (CTrueDiv a d) (mret (np_truediv a d)).

Definition keras_Sequential (layers : list layer) : M (Model K) :=
  logged (CSequential layers) (on_lib (Sequential K layers)).

Definition model_compile (m : Model K) (optimizer loss : string)
    (metrics : list string) : M unit :=
  logged (CCompile m optimizer loss metrics)
         (on_lib (compile K m optimizer loss metrics)).

Definition model_fit (m : Model K) (x : ndarray3 F32.t) (y : list Z)
    (epochs : Z) (batch_size : option Z)
    (validation_data : option (ndarray3 F32.t * list Z)) : M unit :=
  logged (CFit m x y epochs batch_size validation_data)
         (on_lib (fit K m x y epochs batch_size validation_data)).

Definition makedirs (name : string) (exist_ok : bool) : M unit :=
  logged (CMakedirs name exist_ok)
         (fun w => match os_makedirs name exist_ok (fs w) with
                   | inr f => (inr tt, set_fs w f)
                   | inl e => (inl e, w)
                   end).

Definition model_save (m : Model K) (filepath : string) : M unit :=
  logged (CSave m filepath) (on_fs_lib (save K m filepath)).

Definition models_load_model (filepath : string) : M (Model K) :=
  logged (CLoadModel filepath)
         (fun w => let '(r, l) := load_model K filepath (fs w, lib w) in
                   (r, set_lib w l)).

Definition tfjs_save_keras_model (m : Model K) (artifacts_dir : string)
  : M unit :=
  logged (CSaveKerasModel m artifacts_dir)
         (on_fs_lib (save_keras_model K m artifacts_dir)).

(** *** docs/jobs/ai/mnist.py *)

Definition mnist_py : M unit :=
  print ["TensorFlow version:"; tf_version K] ;;
  print ["NumPy version:"; np_version K] ;;
  '((x_train, y_train), (x_test, y_test)) ← mnist_load_data ;
  x_train ← astype_float32 x_train ;
  x_train ← truediv x_train lit_255 ;
  x_test ← astype_float32 x_test ;
  x_test ← truediv x_test lit_255 ;
  model ← keras_Sequential
            [ Flatten (Some [28; 28]);
              Dense 128 "relu";
              Dropout lit_0_2;
              Dense 10 "softmax" ] ;
  model_compile model "adam" "sparse_categorical_crossentropy" ["accuracy"] ;;
  model_fit model x_train y_train 3 (Some 32) (Some (x_test, y_test)) ;;
  makedirs "mnist_model" true ;;
  model_save model "mnist_model/model.h5" ;;
  print ["Model saved successfully!"].

(** *** docs/jobs/ai/convert_model.py *)

Definition convert_model_py : M unit :=
  print ["TensorFlow.js version:"; tfjs_version K] ;;
  model ← models_load_model "mnist_model/model.h5" ;
  makedirs "public/model" true ;;
  tfjs_save_keras_model model "public/model" ;;
  print ["Model converted successfully!"].

(** *** scripts/train_mnist_model.py *)

Definition train_mnist_model_py : M unit :=
  '((x_train, y_train), (x_test, y_test)) ← mnist_load_data ;
  x_train ← astype_float32 x_train ;
  x_train ← truediv x_train lit_255 ;
  x_test ← astype_float32 x_test ;
  x_test ← truediv x_test lit_255 ;
  model ← keras_Sequential
            [ Input [28; 28];
              Reshape [28; 28; 1];
              Conv2D 32 (3, 3) "relu" "same";
              MaxPooling2D (2, 2);
              Conv2D 64 (3, 3) "relu" "same";
              MaxPooling2D (2, 2);
              Flatten None;
              Dense 128 "relu";
              Dropout lit_0_2;
              Dense 10 "softmax" ] ;
  model_compile model "adam" "sparse_categorical_crossentropy" ["accuracy"] ;;
  model_fit model x_train y_train 5 None (Some (x_test, y_test)) ;;
  tfjs_save_keras_model model "public/model".

End Scripts.

Arguments Entry {K} what raised.
Arguments what {K} e.
Arguments raised {K} e.
Arguments CPrint {K} line.
Arguments CLoadData {K}.
Arguments CAstype {K} a dtype.
Arguments CTrueDiv {K} a d.
Arguments CSequential {K} layers.
Arguments CCompile {K} m optimizer loss metrics.
Arguments CFit {K} m x y epochs batch_size validation_data.
Arguments CMakedirs {K} name exist_ok.
Arguments CSave {K} m filepath.
Arguments CLoadModel {K} filepath.
Arguments CSaveKerasModel {K} m artifacts_dir.
Arguments World {K} argv environ fs stdout lib log.
Arguments argv {K} w.
Arguments environ {K} w.
Arguments fs {K} w.
Arguments stdout {K} w.
Arguments lib {K} w.
Arguments log {K} w.

(** ** A run of a script *)

(** A process starts from its inputs ([sys.argv], [os.environ]), the tree
    below its working directory and the state the libraries start in;
    nothing has been written or called yet. *)
Definition run (K : Keras) (script : M K unit)
    (a : list string) (e : gmap string string) (f : fsys) (l : LState K)
  : (exn + unit) * world K :=
  script (World a e f [] l []).

(** ** Classifying calls *)

Inductive kind : Type :=
  | KPrint | KLoadData | KAstype | KTrueDiv | KSequential | KCompile | KFit
  | KMakedirs | KSave | KLoadModel | KSaveKerasModel.

Definition kind_of {K : Keras} (c : call K) : kind :=
  match c with
  | CPrint _ => KPrint
  | CLoadData => KLoadData
  | CAstype _ _ => KAstype
  | CTrueDiv _ _ => KTrueDiv
  | CSequential _ => KSequential
  | CCompile _ _ _ _ => KCompile
  | CFit _ _ _ _ _ _ => KFit
  | CMakedirs _ _ => KMakedirs
  | CSave _ _ => KSave
  | CLoadModel _ => KLoadModel
  | CSaveKerasModel _ _ => KSaveKerasModel
  end.

Definition kinds {K : Keras} (lg : list (entry K)) : list kind :=
  map (fun e => kind_of (what e)) lg.

(** The five steps of the pipeline (section 2 of the specification);
    [print] belongs to none of them. *)
Inductive stage : Type :=
  | Loading | Preprocessing | Building | Training | Export.

#[global] Instance stage_eq_dec : EqDecision stage.
Proof. solve_decision. Defined.

#[global] Instance kind_eq_dec : EqDecision kind.
Proof. solve_decision. Defined.

Definition stage_of (k : kind) : option stage :=
  match k with
  | KPrint => None
  | KLoadData | KLoadModel => Some Loading
  | KAstype | KTrueDiv => Some Preprocessing
  | KSequential | KCompile => Some Building
  | KFit => Some Training
  | KMakedirs | KSave | KSaveKerasModel => Some Export
  end.

Definition stage_rank (s : stage) : nat :=
  match s with
  | Loading => 0 | Preprocessing => 1 | Building => 2 | Training => 3
  | Export => 4
  end.

(** The steps a log went through, in order, consecutive repetitions of a
    step merged. *)
Fixpoint stages_from (prev : option stage) (ks : list kind) : list stage :=
  match ks with
  | [] => []
  | k :: ks' =>
      match stage_of k with
      | None => stages_from prev ks'
      | Some s =>
          if bool_decide (prev = Some s) then stages_from prev ks'
          else s :: stages_from (Some s) ks'
      end
  end.

Definition stages (ks : list kind) : list stage := stages_from None ks.

Definition is_export (k : kind) : bool :=
  match stage_of k with Some Export => true | _ => false end.

(** The calls of each script, top to bottom. *)
Definition mnist_py_kinds : list kind :=
  [KPrint; KPrint; KLoadData; KAstype; KTrueDiv; KAstype; KTrueDiv;
   KSequential; KCompile; KFit; KMakedirs; KSave; KPrint].

Definition train_mnist_model_py_kinds : list kind :=
  [KLoadData; KAstype; KTrueDiv; KAstype; KTrueDiv;
   KSequential; KCompile; KFit; KSaveKerasModel].

Definition convert_model_py_kinds : list kind :=
  [KPrint; KLoadModel; KMakedirs; KSaveKerasModel; KPrint].

(** The layer lists of the two training scripts. *)
Definition mnist_py_layers : list layer :=
  [ Flatten (Some [28; 28]); Dense 128 "relu"; Dropout lit_0_2;
    Dense 10 "softmax" ].

Definition train_mnist_model_py_layers : list layer :=
  [ Input [28; 28]; Reshape [28; 28; 1];
    Conv2D 32 (3, 3) "relu" "same"; MaxPooling2D (2, 2);
    Conv2D 64 (3, 3) "relu" "same"; MaxPooling2D (2, 2);
    Flatten None; Dense 128 "relu"; Dropout lit_0_2; Dense 10 "softmax" ].

(** ** What the scripts rely on from the libraries

    Each contract is one documented behaviour of a library call.  A
    theorem names the contracts it uses; none is assumed globally. *)

Definition path_join (d n : string) : string := d ++ "/" ++ n.

(** Modelled from the spec: [model.save(filepath)] itself is Keras code,
    absent from the repository.  "Output A: a native single-file model
    checkpoint at a fixed relative path": a save that returns has written
    exactly one file, the serialised model, at [filepath]. *)
Definition save_contract (K : Keras) : Prop :=
  forall m p f l f' l',
    save K m p (f, l) = (inr tt, (f', l')) ->
    f' = <[p := File (h5_bytes K l m)]> f.

(** Modelled from the spec: [model.save] is called with its default
    [overwrite=True]; whether it raises does not depend on a file already
    being at [filepath]. *)
Definition save_overwrites (K : Keras) : Prop :=
  forall m p f l c,
    f !! p = Some (File c) ->
    fst (save K m p (f, l)) = fst (save K m p (delete p f, l)).

(** Modelled from the spec: [load_model] is Keras code, absent from the
    repository.  "Any failure (... missing input checkpoint file ...)
    propagates as an unhandled failure from the underlying library":
    loading a path that does not exist raises. *)
Definition load_model_contract (K : Keras) : Prop :=
  forall p f l,
    f !! p = None -> exists e, fst (load_model K p (f, l)) = inl e.

(** Modelled from the spec: "Input ... Output A ... treated as opaque
    hand-offs": [load_model(filepath)] reads the file at [filepath] and
    nothing else of the tree. *)
Definition load_model_local (K : Keras) : Prop :=
  forall p (f f' : fsys) l,
    f !! p = f' !! p -> load_model K p (f, l) = load_model K p (f', l).

(** Modelled from the spec: [tfjs.converters.save_keras_model] is
    TensorFlow.js code, absent from the repository.  "Output B: a
    directory of converted model artifacts (weights + topology metadata)":
    a conversion that returns has left [artifacts_dir] a directory
    holding the topology descriptor [model.json] and every weight-data
    file of the model. *)
Definition save_keras_model_contract (K : Keras) : Prop :=
  forall m d f l f' l',
    save_keras_model K m d (f, l) = (inr tt, (f', l')) ->
    f' !! d = Some Dir /\
    f' !! path_join d "model.json" = Some (File (topology_json K l m)) /\
    Forall (fun nc => f' !! path_join d (fst nc) = Some (File (snd nc)))
           (weight_files K l m).

(** Modelled from the spec: the converter replaces artifacts already in
    [artifacts_dir]; whether it raises does not depend on a file already
    being there. *)
Definition save_keras_model_overwrites (K : Keras) : Prop :=
  forall m d n f l c,
    f !! path_join d n = Some (File c) ->
    fst (save_keras_model K m d (f, l)) =
    fst (save_keras_model K m d (delete (path_join d n) f, l)).

(** ** A small implementation of the interface

    Models are numbered objects in the library state; each records how
    many layers it has and for how many epochs it was fitted.  Used to
    run the scripts on concrete inputs. *)
Module Toy.

Definition state : Type := list (nat * Z).

Definition byte_of (n : nat) : Byte.byte := default Byte.x00 (Byte.of_nat n).

Definition bytes_of (o : nat * Z) : blob :=
  [byte_of (fst o); byte_of (Z.to_nat (snd o))].

Definition object (l : state) (m : nat) : nat * Z := default (0%nat, 0) (l !! m).

Definition mnist : dataset :=
  (([ [ [0; 255]; [128; 1] ] ], [7]), ([ [ [64; 200]; [3; 17] ] ], [2])).

Definition t_save (m : nat) (p : string) (fl : fsys * state)
  : (exn + unit) * (fsys * state) :=
  let '(f, l) := fl in
  if path_isdir f (fst (path_split p)) && negb (path_isdir f p)
  then (inr tt, (<[p := File (bytes_of (object l m))]> f, l))
  else (inl (LibraryError "Unable to create file"), fl).

Definition t_load_model (p : string) (fl : fsys * state)
  : (exn + nat) * state :=
  let '(f, l) := fl in
  match f !! p with
  | Some (File c) => (inr (List.length l), (l ++ [(List.length c, 0)])%list)
  | _ => (inl (LibraryError "No file or directory found"), l)
  end.

Definition t_weight_files (l : state) (m : nat) : list (string * blob) :=
  [("group1-shard1of1.bin", bytes_of (object l m))].

Definition t_topology (l : state) (m : nat) : blob := [byte_of (fst (object l m))].

Definition write_files (d : string) (files : list (string * blob)) (f : fsys)
  : fsys :=
  foldr (fun nc acc => <[path_join d (fst nc) := File (snd nc)]> acc) f files.

Definition t_save_keras_model (m : nat) (d : string) (fl : fsys * state)
  : (exn + unit) * (fsys * state) :=
  let '(f, l) := fl in
  match f !! d with
  | Some (File _) => (inl (LibraryError "Path already exists as a file"), fl)
  | _ =>
      (inr tt,
       (<[d := Dir]>
          (<[path_join d "model.json" := File (t_topology l m)]>
             (write_files d (t_weight_files l m) f)), l))
  end.

Definition keras : Keras := {|
  Model := nat;
  LState := state;
  tf_version := "2.15.0";
  np_version := "1.26.4";
  tfjs_version := "4.17.0";
  load_data := fun l => (inr mnist, l);
  Sequential := fun layers l => (inr (List.length l), (l ++ [(List.length layers, 0)])%list);
  compile := fun _ _ _ _ l => (inr tt, l);
  fit := fun m _ _ epochs _ _ l =>
           (inr tt, alter (fun o => (fst o, snd o + epochs)) m l);
  save := t_save;
  load_model := t_load_model;
  save_keras_model := t_save_keras_model;
  h5_bytes := fun l m => bytes_of (object l m);
  topology_json := t_topology;
  weight_files := t_weight_files
|}.

(** A tree that already holds a checkpoint. *)
Definition tree_with_checkpoint : fsys :=
  <["mnist_model/model.h5" := File [Byte.x09; Byte.x09; Byte.x09]]>
    (<["mnist_model" := Dir]> ∅).

(** A tree that holds the outputs of earlier runs of both scripts. *)
Definition tree_with_outputs : fsys :=
  <["public/model/model.json" := File [Byte.x07]]>
    (<["public/model" := Dir]>
       (<["public" := Dir]> tree_with_checkpoint)).

End Toy.

(** The bound of [in_unit_interval], as a test. *)
Definition pixel_ok (p : Z) : bool :=
  F32.leb F32.zero (preprocess_pixel p) && F32.leb (preprocess_pixel p) F32.one.


(** ** Properties of a finished run *)

Section RunProperties.

Context {K : Keras}.

Implicit Types (r : (exn + unit) * world K) (lg : list (entry K)).

(** The calls made follow the fixed list [ks] from its start, without
    skipping or repeating any: all of it when the run completes. *)
Definition straight_line (ks : list kind) r : Prop :=
  kinds (log (snd r)) `prefix_of` ks /\
  (fst r = inr tt -> kinds (log (snd r)) = ks).

(** An exception raised by a call is the outcome of the run, and the
    raising call is the last one made; a run that ends with an exception
    got it from its last call. *)
Definition propagates r : Prop :=
  (forall (i : nat) ent ex,
      log (snd r) !! i = Some ent -> raised ent = Some ex ->
      fst r = inl ex /\ S i = List.length (log (snd r))) /\
  (forall ex, fst r = inl ex ->
      exists ent, last (log (snd r)) = Some ent /\ raised ent = Some ex).

(** Every export call comes after a [fit] call that returned. *)
Definition trains_before_export r : Prop :=
  forall (i : nat) ent,
    log (snd r) !! i = Some ent ->
    is_export (kind_of (what ent)) = true ->
    exists (j : nat) ent',
      (j < i)%nat /\ log (snd r) !! j = Some ent' /\
      kind_of (what ent') = KFit /\ raised ent' = None.

(** The run leaves its inputs alone, and only export calls touch the
    tree: a run that made none leaves the tree as it found it. *)
Definition persists_only_by_export
    (a : list string) (e : gmap string string) (f : fsys) r : Prop :=
  argv (snd r) = a /\ environ (snd r) = e /\
  (Forall (fun ent => is_export (kind_of (what ent)) = false) (log (snd r)) ->
   fs (snd r) = f).

(** Two runs that cannot be told apart: same outcome, same tree, same
    output, same library state, same calls with the same arguments. *)
Definition same_behaviour r r' : Prop :=
  fst r = fst r' /\ fs (snd r) = fs (snd r') /\
  stdout (snd r) = stdout (snd r') /\ lib (snd r) = lib (snd r') /\
  log (snd r) = log (snd r').

(** The hyper-parameters of every model-building and training call. *)
Definition fixed_parameters
    (layers : list layer) (epochs : Z) (batch_size : option Z) lg : Prop :=
  Forall (fun ent =>
    (forall ls, what ent = CSequential ls -> ls = layers) /\
    (forall m o lo me, what ent = CCompile m o lo me ->
        o = "adam" /\ lo = "sparse_categorical_crossentropy" /\
        me = ["accuracy"]) /\
    (forall m x y ep bs v, what ent = CFit m x y ep bs v ->
        ep = epochs /\ bs = batch_size)) lg.

(** The paths of every call that takes one. *)
Definition fixed_paths (checkpoint : string) (artifacts : string) lg : Prop :=
  Forall (fun ent =>
    (forall n b, what ent = CMakedirs n b ->
        b = true /\ (n = "mnist_model" \/ n = artifacts)) /\
    (forall m p, what ent = CSave m p -> p = checkpoint) /\
    (forall p, what ent = CLoadModel p -> p = checkpoint) /\
    (forall m d, what ent = CSaveKerasModel m d -> d = artifacts)) lg.

(** Every training call is given the preprocessed images of the loaded
    dataset, both as training data and as validation data. *)
Definition fit_gets_preprocessed (x_train x_test : ndarray3 Z) lg : Prop :=
  Forall (fun ent =>
    forall m x y ep bs v, what ent = CFit m x y ep bs v ->
      x = nd_map preprocess_pixel x_train /\
      exists yv, v = Some (nd_map preprocess_pixel x_test, yv)) lg.

(** Every training call is given the labels of the loaded dataset as they
    are. *)
Definition fit_gets_labels (y_train y_test : list Z) lg : Prop :=
  Forall (fun ent =>
    forall m x y ep bs v, what ent = CFit m x y ep bs v ->
      y = y_train /\ exists xv, v = Some (xv, y_test)) lg.

(** The preprocessing calls are applied to the two image arrays, and
    divide by the literal 255.0. *)
Definition preprocesses_images (x_train x_test : ndarray3 Z) lg : Prop :=
  Forall (fun ent =>
    (forall arr dt, what ent = CAstype arr dt ->
        dt = "float32" /\ (arr = x_train \/ arr = x_test)) /\
    (forall arr d, what ent = CTrueDiv arr d ->
        d = lit_255 /\
        (arr = np_astype_float32 x_train \/ arr = np_astype_float32 x_test)))
    lg.

End RunProperties.


(** ** More on the preprocessor *)

(** [<] on float32 values. *)
Definition f32_ltb (x y : F32.t) : bool := SFltb x y.

(** The rational number a finite float32 stands for. *)
Definition f32_to_Q (x : F32.t) : QArith_base.Q :=
  match x with
  | S754_finite s m e =>
      QArith_base.Qmult
        (QArith_base.inject_Z (if s then Z.neg m else Z.pos m))
        (QArith_base.Qpower (QArith_base.inject_Z 2) e)
  | _ => QArith_base.inject_Z 0
  end.

Definition f32_is_finite (x : F32.t) : bool :=
  match x with
  | S754_finite _ _ _ | S754_zero _ => true
  | _ => false
  end.

(** The distance between the float32 result for pixel [p] and the exact
    quotient [p / 255]. *)
Definition preprocess_error (p : Z) : QArith_base.Q :=
  Qabs.Qabs (QArith_base.Qminus (f32_to_Q (preprocess_pixel p))
                                (QArith_base.Qmake p 255)).

(** Half a unit in the last place of a float32 in [[1/2, 1)]: [2^-25]. *)
Definition half_ulp_below_one : QArith_base.Q :=
  QArith_base.Qmake 1 (2 ^ 25).

(** ** More on the export steps *)

(** Modelled from the spec: "The checkpoint, when reloaded, accepts a
    batch ...": [load_model] on a path that holds a checkpoint written by
    [model.save] returns a model. *)
Definition load_model_accepts_saved (K : Keras) : Prop :=
  forall p (f : fsys) l m l',
    f !! p = Some (File (h5_bytes K l m)) ->
    exists m' l'', load_model K p (f, l') = (inr m', l'').

(** The lines the script itself printed, in order: the arguments of its
    [print] calls.  What the libraries write on their own is not part of
    it. *)
Definition printed {K : Keras} (lg : list (entry K)) : list string :=
  flat_map (fun ent => match what ent with
                       | CPrint line => [line]
                       | _ => []
                       end) lg.

(** The checks of the two theorems on the preprocessor's order and
    accuracy, over the table of all pixel values. *)
Definition pixel_table : list (Z * F32.t) :=
  map (fun n => (Z.of_nat n, preprocess_pixel (Z.of_nat n))) (seq 0 256).

Definition table_increasing (tbl : list (Z * F32.t)) : bool :=
  forallb (fun a =>
    forallb (fun b => implb (Z.ltb (fst a) (fst b)) (f32_ltb (snd a) (snd b))) tbl)
    tbl.

Definition pixel_accurate (p : Z) : bool :=
  f32_is_finite (preprocess_pixel p) &&
  QArith_base.Qle_bool (preprocess_error p) half_ulp_below_one.

(** A tree in which [public/model] is a regular file. *)
Definition tree_public_model_is_file : fsys :=
  <["public/model" := File [Byte.x01]]>
    (<["public" := Dir]> Toy.tree_with_checkpoint).

(** A tree in which [public] is a regular file. *)
Definition tree_public_is_file : fsys :=
  <["public" := File [Byte.x01]]> Toy.tree_with_checkpoint.

(** A tree in which [mnist_model] is a regular file. *)
Definition tree_mnist_model_is_file : fsys :=
  <["mnist_model" := File [Byte.x01]]> ∅.

(** The lines the scripts print. *)
Definition version_line (what_ version : string) : string :=
  what_ ++ " version: " ++ version ++ newline.

Definition saved_line : string := "Model saved successfully!" ++ newline.

Definition converted_line : string := "Model converted successfully!" ++ newline.
(** * Proofs *)

Arguments lit_255 : simpl never.
Arguments lit_0_2 : simpl never.
Arguments os_makedirs : simpl never.
Arguments np_astype_float32 : simpl never.
Arguments np_truediv : simpl never.
Arguments preprocess_pixel : simpl never.
Arguments newline : simpl never.
Arguments String.concat : simpl never.

(** ** The preprocessor on one pixel *)

Lemma all_pixels_ok : forallb pixel_ok (map Z.of_nat (seq 0 256)) = true.
Proof. vm_compute. reflexivity. Qed.

Lemma preprocess_pixel_unit (p : Z) :
  0 <= p <= 255 -> in_unit_interval (preprocess_pixel p).
Proof.
  intros Hp.
  pose proof all_pixels_ok as Hall.
  rewrite forallb_forall in Hall.
  specialize (Hall p).
  assert (Hin : In p (map Z.of_nat (seq 0 256))).
  { apply in_map_iff. exists (Z.to_nat p). split; [lia|].
    apply in_seq. lia. }
  apply Hall in Hin. unfold pixel_ok in Hin.
  apply andb_prop in Hin. exact Hin.
Qed.

Lemma nd_map_compose {A B C : Type} (g : B -> C) (h : A -> B) (a : ndarray3 A) :
  nd_map g (nd_map h a) = nd_map (fun x => g (h x)) a.
Proof.
  unfold nd_map. rewrite map_map. apply map_ext. intros rows.
  rewrite map_map. apply map_ext. intros row. apply map_map.
Qed.

Lemma preprocess_arrays (a : ndarray3 Z) :
  np_truediv (np_astype_float32 a) lit_255 = nd_map preprocess_pixel a.
Proof.
  unfold np_truediv, np_astype_float32. rewrite nd_map_compose. reflexivity.
Qed.

Lemma nd_Forall_map {A B : Type} (P : A -> Prop) (Q : B -> Prop) (h : A -> B)
    (a : ndarray3 A) :
  (forall x, P x -> Q (h x)) -> nd_Forall P a -> nd_Forall Q (nd_map h a).
Proof.
  intros HPQ. unfold nd_Forall, nd_map.
  intros Ha. apply Forall_map. eapply Forall_impl; [exact Ha|].
  intros rows Hrows. apply Forall_map. eapply Forall_impl; [exact Hrows|].
  intros row Hrow. apply Forall_map. eapply Forall_impl; [exact Hrow|].
  exact HPQ.
Qed.

(** ** Paths and [os.makedirs] on the two directories the scripts name *)

Lemma path_exists_lookup (f : fsys) (p : string) :
  p <> "" -> path_exists f p = bool_decide (is_Some (f !! p)).
Proof.
  intros Hp. unfold path_exists.
  destruct (String.eqb_spec p ""); [contradiction|reflexivity].
Qed.

Lemma try_mkdir_inr (name : string) (b : bool) (f f1 : fsys) :
  name <> "" ->
  try_mkdir name b f = inr f1 ->
  f1 !! name = Some Dir /\ (f1 = f \/ f1 = <[name := Dir]> f).
Proof.
  intros Hname. unfold try_mkdir, os_mkdir.
  destruct (path_exists f name) eqn:Hex.
  - unfold path_isdir.
    destruct (String.eqb_spec name ""); [contradiction|].
    destruct b, (f !! name) as [[|c]|] eqn:Hl; cbn; try discriminate.
    intros [= <-]. split; [exact Hl|now left].
  - destruct (path_isdir f (path_split name).1).
    + intros [= <-]. split; [apply lookup_insert_eq|now right].
    + destruct (path_exists f (path_split name).1); cbn;
        unfold path_isdir;
        destruct (String.eqb_spec name ""); try contradiction;
        rewrite path_exists_lookup in Hex by exact Hname;
        destruct b, (f !! name) as [[|c]|] eqn:Hl; cbn in *; try discriminate.
Qed.

Lemma try_mkdir_exists (name : string) (f : fsys) :
  f !! name = Some Dir -> try_mkdir name true f = inr f.
Proof.
  intros Hl. unfold try_mkdir, os_mkdir, path_exists, path_isdir.
  destruct (String.eqb name ""); [reflexivity|].
  rewrite Hl. cbn. reflexivity.
Qed.

Lemma makedirs_mnist_model (f f1 : fsys) :
  os_makedirs "mnist_model" true f = inr f1 ->
  f1 !! "mnist_model" = Some Dir /\
  (f1 = f \/ f1 = <["mnist_model" := Dir]> f).
Proof.
  unfold os_makedirs. cbn -[try_mkdir].
  apply try_mkdir_inr. discriminate.
Qed.

Lemma makedirs_mnist_model_exists (f : fsys) :
  f !! "mnist_model" = Some Dir -> os_makedirs "mnist_model" true f = inr f.
Proof.
  intros H. unfold os_makedirs. cbn -[try_mkdir]. now apply try_mkdir_exists.
Qed.

Lemma makedirs_public_model (f f1 : fsys) :
  os_makedirs "public/model" true f = inr f1 ->
  f1 !! "public/model" = Some Dir /\
  (forall p, p <> "public" -> p <> "public/model" -> f1 !! p = f !! p).
Proof.
  unfold os_makedirs. cbn -[try_mkdir path_exists].
  destruct (path_exists f "public"); cbn -[try_mkdir].
  - intros H. apply try_mkdir_inr in H; [|discriminate]. destruct H as [H1 [->| ->]].
    + split; [exact H1|reflexivity].
    + split; [exact H1|]. intros p _ Hp. now rewrite lookup_insert_ne.
  - destruct (try_mkdir "public" true f) as [e|f0] eqn:H0.
    + destruct (is_FileExistsError e); [|discriminate].
      intros H. apply try_mkdir_inr in H; [|discriminate]. destruct H as [H1 [->| ->]].
      * split; [exact H1|reflexivity].
      * split; [exact H1|]. intros p _ Hp. now rewrite lookup_insert_ne.
    + apply try_mkdir_inr in H0 as [_ H0]; [|discriminate].
      intros H. apply try_mkdir_inr in H as [H1 H]; [|discriminate].
      split; [exact H1|]. intros p Hp1 Hp2.
      destruct H as [->| ->], H0 as [->| ->];
        rewrite ?lookup_insert_ne by congruence; reflexivity.
Qed.

Lemma makedirs_public_model_exists (f : fsys) :
  f !! "public/model" = Some Dir ->
  exists f1, os_makedirs "public/model" true f = inr f1.
Proof.
  intros Hl. unfold os_makedirs. cbn -[try_mkdir path_exists].
  destruct (path_exists f "public"); cbn -[try_mkdir].
  - rewrite try_mkdir_exists by exact Hl. eauto.
  - destruct (try_mkdir "public" true f) as [e|f0] eqn:H0.
    + destruct (is_FileExistsError e) eqn:He.
      * rewrite try_mkdir_exists by exact Hl. eauto.
      * exfalso. revert H0 He. unfold try_mkdir, os_mkdir.
        cbn -[path_exists path_isdir].
        destruct (path_exists f "public"); cbn.
        -- destruct (f !! "public") as [[|c]|]; cbn; try discriminate.
           all: intros [= <-]; discriminate.
        -- discriminate.
    + apply try_mkdir_inr in H0 as [_ H0]; [|discriminate].
      rewrite try_mkdir_exists; [eauto|].
      destruct H0 as [->| ->]; [exact Hl|].
      rewrite lookup_insert_ne by discriminate. exact Hl.
Qed.

Lemma makedirs_public_model_present (f : fsys) :
  f !! "public/model" = Some Dir ->
  os_makedirs "public/model" true f =
  inr (if path_exists f "public" then f else <["public" := Dir]> f).
Proof.
  intros Hl. unfold os_makedirs. cbn -[try_mkdir path_exists].
  destruct (path_exists f "public") eqn:Hp; cbn -[try_mkdir].
  - now rewrite try_mkdir_exists.
  - assert (H0 : try_mkdir "public" true f = inr (<["public" := Dir]> f)).
    { unfold try_mkdir, os_mkdir. rewrite Hp. reflexivity. }
    rewrite H0. rewrite try_mkdir_exists; [reflexivity|].
    rewrite lookup_insert_ne by discriminate. exact Hl.
Qed.

Lemma makedirs_public_model_delete (f : fsys) (n : string) :
  f !! "public/model" = Some Dir ->
  os_makedirs "public/model" true (delete (path_join "public/model" n) f) =
  match os_makedirs "public/model" true f with
  | inr f1 => inr (delete (path_join "public/model" n) f1)
  | inl ex => inl ex
  end.
Proof.
  intros Hl.
  assert (Hq1 : path_join "public/model" n <> "public/model") by discriminate.
  assert (Hq2 : path_join "public/model" n <> "public") by discriminate.
  rewrite (makedirs_public_model_present f Hl).
  rewrite makedirs_public_model_present
    by (rewrite lookup_delete_ne by exact Hq1; exact Hl).
  rewrite !path_exists_lookup by discriminate.
  rewrite lookup_delete_ne by exact Hq2.
  destruct (bool_decide (is_Some (f !! "public"))); [reflexivity|].
  rewrite delete_insert_ne by exact Hq2. reflexivity.
Qed.

(** ** Running a script symbolically *)

Ltac unfold_script :=
  unfold run, mnist_py, convert_model_py, train_mnist_model_py,
    mbind, M_bind, bind, print, mnist_load_data, astype_float32, truediv,
    keras_Sequential, model_compile, model_fit, makedirs, model_save,
    models_load_model, tfjs_save_keras_model, logged, on_lib, on_fs_lib,
    mret, M_ret, ret;
  cbn.

(** Case analysis on the result of the next library or runtime call. *)
Ltac next_call :=
  match goal with
  | |- context [load_data ?K ?l] =>
      destruct (load_data K l)
        as [[?ex|[[?xtr ?ytr] [?xte ?yte]]] ?l] eqn:?Hload
  | |- context [Sequential ?K ?ls ?l] =>
      destruct (Sequential K ls l) as [[?ex|?m] ?l] eqn:?Hseq
  | |- context [compile ?K ?m ?o ?lo ?me ?l] =>
      destruct (compile K m o lo me l) as [[?ex|[]] ?l] eqn:?Hcompile
  | |- context [fit ?K ?m ?x ?y ?ep ?bs ?v ?l] =>
      destruct (fit K m x y ep bs v l) as [[?ex|[]] ?l] eqn:?Hfit
  | |- context [os_makedirs ?n ?b ?f] =>
      destruct (os_makedirs n b f) as [?ex|?f] eqn:?Hmk
  | |- context [save ?K ?m ?p ?fl] =>
      destruct (save K m p fl) as [[?ex|[]] [?f ?l]] eqn:?Hsave
  | |- context [load_model ?K ?p ?fl] =>
      destruct (load_model K p fl) as [[?ex|?m] ?l] eqn:?Hloadm
  | |- context [save_keras_model ?K ?m ?d ?fl] =>
      destruct (save_keras_model K m d fl) as [[?ex|[]] [?f ?l]] eqn:?Hconv
  end;
  cbn.

Ltac exec := unfold_script; repeat next_call.

Lemma no_export_kinds {K : Keras} (lg : list (entry K)) :
  Forall (fun ent => is_export (kind_of (what ent)) = false) lg ->
  forallb (fun k => negb (is_export k)) (kinds lg) = true.
Proof.
  intros H. unfold kinds. apply forallb_forall. intros k Hk.
  apply in_map_iff in Hk as [ent [<- Hent]].
  rewrite Forall_forall in H. apply list_elem_of_In in Hent.
  now rewrite (H ent Hent).
Qed.

(** Walk through the positions of an explicit log. *)
Ltac each_position i H :=
  repeat (destruct i as [|i]; cbn in H; try discriminate H).

Ltac solve_straight_line :=
  unfold straight_line; exec;
  (split;
   [ unfold kinds; cbn; eexists; reflexivity
   | try discriminate; intros _; reflexivity ]).

Ltac solve_propagates :=
  unfold propagates; exec;
  (split;
   [ intros i ent ex0 Hi Hr; each_position i Hi;
     injection Hi as <-; cbn in Hr; try discriminate Hr;
     injection Hr as <-; split; reflexivity
   | intros ex0 Hex; try discriminate Hex;
     injection Hex as <-; eexists; split; reflexivity ]).

Ltac solve_trains_before_export fit_position :=
  unfold trains_before_export; exec;
  intros i ent Hi Hexp; each_position i Hi;
  injection Hi as <-; cbn in Hexp; try discriminate Hexp;
  exists fit_position; eexists;
  (split; [lia | split; [reflexivity | split; reflexivity]]).

Ltac solve_persists :=
  unfold persists_only_by_export; exec;
  (split; [reflexivity | split; [reflexivity |]]);
  intros Hno;
  first [ reflexivity
        | exfalso; apply no_export_kinds in Hno; cbn in Hno;
          discriminate Hno ].

Ltac solve_entry :=
  cbn; repeat split; intros; simplify_eq;
  rewrite ?preprocess_arrays; repeat split; eauto.

Ltac solve_entries :=
  repeat (apply List.Forall_cons; [solve_entry |]); try apply List.Forall_nil.

Section Claims.

Context (K : Keras).

(** C1.  Running mnist.py to completion writes the trained model as a
    single-file checkpoint at the fixed path [mnist_model/model.h5]: after
    a run that completes, [mnist_model] is a directory (created by
    [os.makedirs] when it was missing), the file at
    [mnist_model/model.h5] is the serialisation of the model object in
    the state [fit] returned it in, and no other path of the tree has
    changed.  Holds for every library whose [model.save] meets
    [save_contract]. *)
Theorem mnist_py_writes_checkpoint
    (a : list string) (e : gmap string string) (f : fsys) (l : LState K) :
  save_contract K ->
  fst (run K (mnist_py K) a e f l) = inr tt ->
  let f' := fs (snd (run K (mnist_py K) a e f l)) in
  f' !! "mnist_model" = Some Dir /\
  (exists m x y v l3 l4,
      fit K m x y 3 (Some 32) v l3 = (inr tt, l4) /\
      f' !! "mnist_model/model.h5" = Some (File (h5_bytes K l4 m))) /\
  (forall p, p <> "mnist_model" -> p <> "mnist_model/model.h5" ->
             f' !! p = f !! p).
Proof.
  intros Hsave. exec; try discriminate.
  intros _.
  apply Hsave in Hsave0. subst.
  apply makedirs_mnist_model in Hmk as [Hdir Hmk].
  split; [|split].
  - rewrite lookup_insert_ne by discriminate. exact Hdir.
  - do 6 eexists. split; [exact Hfit|]. apply lookup_insert_eq.
  - intros p Hp1 Hp2. rewrite lookup_insert_ne by congruence.
    destruct Hmk as [->| ->]; [reflexivity|].
    rewrite lookup_insert_ne by congruence. reflexivity.
Qed.

Lemma mnist_py_straight_line a e f l :
  straight_line mnist_py_kinds (run K (mnist_py K) a e f l).
Proof. solve_straight_line. Qed.

Lemma train_mnist_model_py_straight_line a e f l :
  straight_line train_mnist_model_py_kinds
                (run K (train_mnist_model_py K) a e f l).
Proof. solve_straight_line. Qed.

Lemma convert_model_py_straight_line a e f l :
  straight_line convert_model_py_kinds (run K (convert_model_py K) a e f l).
Proof. solve_straight_line. Qed.

Lemma mnist_py_propagates a e f l :
  propagates (run K (mnist_py K) a e f l).
Proof. solve_propagates. Qed.

Lemma train_mnist_model_py_propagates a e f l :
  propagates (run K (train_mnist_model_py K) a e f l).
Proof. solve_propagates. Qed.

Lemma convert_model_py_propagates a e f l :
  propagates (run K (convert_model_py K) a e f l).
Proof. solve_propagates. Qed.

Lemma mnist_py_trains_before_export a e f l :
  trains_before_export (run K (mnist_py K) a e f l).
Proof. solve_trains_before_export 9%nat. Qed.

Lemma train_mnist_model_py_trains_before_export a e f l :
  trains_before_export (run K (train_mnist_model_py K) a e f l).
Proof. solve_trains_before_export 7%nat. Qed.

Lemma mnist_py_persists a e f l :
  persists_only_by_export a e f (run K (mnist_py K) a e f l).
Proof. solve_persists. Qed.

Lemma train_mnist_model_py_persists a e f l :
  persists_only_by_export a e f (run K (train_mnist_model_py K) a e f l).
Proof. solve_persists. Qed.

Lemma convert_model_py_persists a e f l :
  persists_only_by_export a e f (run K (convert_model_py K) a e f l).
Proof. solve_persists. Qed.

(** C7.  Each script runs top to bottom: the calls it makes are an
    initial part of one fixed list (no branching, no call repeated), the
    whole list when the run completes; a call that raises is the last
    one; in the two training scripts a completed run goes through data
    loading, preprocessing, model building, training and export in that
    order, and every export call comes after a [fit] that returned; a
    run leaves its inputs alone and touches the tree only in export
    calls. *)
Theorem scripts_run_top_to_bottom
    (a : list string) (e : gmap string string) (f : fsys) (l : LState K) :
  let r1 := run K (mnist_py K) a e f l in
  let r2 := run K (train_mnist_model_py K) a e f l in
  let r3 := run K (convert_model_py K) a e f l in
  (straight_line mnist_py_kinds r1 /\ propagates r1 /\
   trains_before_export r1 /\ persists_only_by_export a e f r1 /\
   (fst r1 = inr tt ->
    stages (kinds (log (snd r1))) =
      [Loading; Preprocessing; Building; Training; Export])) /\
  (straight_line train_mnist_model_py_kinds r2 /\ propagates r2 /\
   trains_before_export r2 /\ persists_only_by_export a e f r2 /\
   (fst r2 = inr tt ->
    stages (kinds (log (snd r2))) =
      [Loading; Preprocessing; Building; Training; Export])) /\
  (straight_line convert_model_py_kinds r3 /\ propagates r3 /\
   persists_only_by_export a e f r3).
Proof.
  cbv zeta. split; [|split].
  - split; [apply mnist_py_straight_line|].
    split; [apply mnist_py_propagates|].
    split; [apply mnist_py_trains_before_export|].
    split; [apply mnist_py_persists|].
    intros Hok.
    destruct (mnist_py_straight_line a e f l) as [_ Hks].
    rewrite (Hks Hok). reflexivity.
  - split; [apply train_mnist_model_py_straight_line|].
    split; [apply train_mnist_model_py_propagates|].
    split; [apply train_mnist_model_py_trains_before_export|].
    split; [apply train_mnist_model_py_persists|].
    intros Hok.
    destruct (train_mnist_model_py_straight_line a e f l) as [_ Hks].
    rewrite (Hks Hok). reflexivity.
  - split; [apply convert_model_py_straight_line|].
    split; [apply convert_model_py_propagates|].
    apply convert_model_py_persists.
Qed.

(** C4.  No script reads [sys.argv] or [os.environ]: two runs from the
    same tree and library state that differ only in these inputs have
    the same outcome, tree, output, library state and calls.  The
    hyper-parameters are the literals of the script bodies: in mnist.py
    the layer list [mnist_py_layers], [epochs=3], [batch_size=32]; in
    train_mnist_model.py the layer list [train_mnist_model_py_layers],
    [epochs=5] and no [batch_size]; the paths are literals too. *)
Theorem no_configuration_surface
    (a a' : list string) (e e' : gmap string string) (f : fsys) (l : LState K) :
  (same_behaviour (run K (mnist_py K) a e f l) (run K (mnist_py K) a' e' f l) /\
   fixed_parameters mnist_py_layers 3 (Some 32)
     (log (snd (run K (mnist_py K) a e f l))) /\
   fixed_paths "mnist_model/model.h5" "public/model"
     (log (snd (run K (mnist_py K) a e f l)))) /\
  (same_behaviour (run K (train_mnist_model_py K) a e f l)
                  (run K (train_mnist_model_py K) a' e' f l) /\
   fixed_parameters train_mnist_model_py_layers 5 None
     (log (snd (run K (train_mnist_model_py K) a e f l))) /\
   fixed_paths "mnist_model/model.h5" "public/model"
     (log (snd (run K (train_mnist_model_py K) a e f l)))) /\
  (same_behaviour (run K (convert_model_py K) a e f l)
                  (run K (convert_model_py K) a' e' f l) /\
   fixed_paths "mnist_model/model.h5" "public/model"
     (log (snd (run K (convert_model_py K) a e f l)))).
Proof.
  split; [|split]; repeat match goal with |- _ /\ _ => split end.
  all: try (unfold same_behaviour; exec; repeat split; reflexivity).
  all: unfold fixed_parameters, fixed_paths; exec.
  all: solve_entries.
Qed.

(** C5.  Every failure ends the run: in each of the three scripts an
    exception raised by a call is the outcome of the run and no call is
    made after it.  In particular, when [mnist_model/model.h5] is
    missing, convert_model.py ends with the exception of [load_model];
    it has made no [os.makedirs] or converter call and the tree is as it
    was.  The second part holds for every library whose [load_model]
    meets [load_model_contract]. *)
Theorem failures_end_the_run
    (a : list string) (e : gmap string string) (f : fsys) (l : LState K) :
  let r1 := run K (mnist_py K) a e f l in
  let r2 := run K (train_mnist_model_py K) a e f l in
  let r3 := run K (convert_model_py K) a e f l in
  propagates r1 /\ propagates r2 /\ propagates r3 /\
  (load_model_contract K ->
   f !! "mnist_model/model.h5" = None ->
   exists ex,
     fst r3 = inl ex /\
     fs (snd r3) = f /\
     kinds (log (snd r3)) = [KPrint; KLoadModel] /\
     last (log (snd r3)) =
       Some (Entry (CLoadModel "mnist_model/model.h5") (Some ex))).
Proof.
  cbv zeta.
  split; [apply mnist_py_propagates|].
  split; [apply train_mnist_model_py_propagates|].
  split; [apply convert_model_py_propagates|].
  intros Hc Hnone.
  destruct (Hc "mnist_model/model.h5" f l Hnone) as [ex Hex].
  exists ex. revert Hex. exec; cbn; intros Hex; simplify_eq.
  repeat split.
Qed.

(** C6.  The preprocessor rescales pixels into the unit interval: for
    every pixel value [0 <= p <= 255] the float32 value [p / 255.0] is
    between 0 and 1, and in both training scripts this map is applied
    element by element to the training images and to the test images:
    a run that completes has made the [astype('float32')] call and the
    division by [255.0] on each of the two arrays and then a [fit] call
    on the two results; every [fit] call receives exactly the arrays so
    rescaled, all of whose elements are between 0 and 1. *)
Theorem preprocessor_rescales_pixels :
  (forall p, 0 <= p <= 255 -> in_unit_interval (preprocess_pixel p)) /\
  (forall script a e f l x_train y_train x_test y_test l1,
      script = mnist_py K \/ script = train_mnist_model_py K ->
      load_data K l = (inr ((x_train, y_train), (x_test, y_test)), l1) ->
      preprocesses_images x_train x_test (log (snd (run K script a e f l))) /\
      fit_gets_preprocessed x_train x_test
        (log (snd (run K script a e f l))) /\
      (nd_Forall (fun p => 0 <= p <= 255) x_train ->
       nd_Forall in_unit_interval (nd_map preprocess_pixel x_train)) /\
      (nd_Forall (fun p => 0 <= p <= 255) x_test ->
       nd_Forall in_unit_interval (nd_map preprocess_pixel x_test)) /\
      (fst (run K script a e f l) = inr tt ->
       let lg := log (snd (run K script a e f l)) in
       In (Entry (CAstype x_train "float32") None) lg /\
       In (Entry (CTrueDiv (np_astype_float32 x_train) lit_255) None) lg /\
       In (Entry (CAstype x_test "float32") None) lg /\
       In (Entry (CTrueDiv (np_astype_float32 x_test) lit_255) None) lg /\
       exists m ep bs,
         In (Entry (CFit m (nd_map preprocess_pixel x_train) y_train ep bs
                         (Some (nd_map preprocess_pixel x_test, y_test)))
                   None) lg)).
Proof.
  split; [exact preprocess_pixel_unit|].
  intros script a e f l x_train y_train x_test y_test l1 Hscript.
  assert (Hmap : forall arr : ndarray3 Z,
             nd_Forall (fun p => 0 <= p <= 255) arr ->
             nd_Forall in_unit_interval (nd_map preprocess_pixel arr)).
  { intros arr. apply nd_Forall_map. exact preprocess_pixel_unit. }
  destruct Hscript as [-> | ->].
  all: unfold preprocesses_images, fit_gets_preprocessed.
  all: exec; intros Hl; simplify_eq.
  all: (split; [solve_entries | split; [solve_entries |]]).
  all: (split; [apply Hmap | split; [apply Hmap |]]).
  all: intros Hok; try discriminate Hok.
  all: rewrite <- !preprocess_arrays.
  all: repeat (split; [repeat (first [left; reflexivity | right]) |]).
  all: do 3 eexists; repeat (first [left; reflexivity | right]).
Qed.

(** C9.  The preprocessor touches only the images: its calls are applied
    to [x_train] and [x_test]; every [fit] call receives [y_train] and
    [y_test] exactly as [load_data] returned them, a run that completes
    has made such a call, and the loss compiled into the model is
    [sparse_categorical_crossentropy]. *)
Theorem labels_reach_training_unchanged
    (a : list string) (e : gmap string string) (f : fsys) (l : LState K)
    (x_train x_test : ndarray3 Z) (y_train y_test : list Z) (l1 : LState K)
    (script : M K unit) :
  script = mnist_py K \/ script = train_mnist_model_py K ->
  load_data K l = (inr ((x_train, y_train), (x_test, y_test)), l1) ->
  let r := run K script a e f l in
  preprocesses_images x_train x_test (log (snd r)) /\
  fit_gets_labels y_train y_test (log (snd r)) /\
  Forall (fun ent => forall m o lo me, what ent = CCompile m o lo me ->
                       lo = "sparse_categorical_crossentropy") (log (snd r)) /\
  (fst r = inr tt ->
   exists m x ep bs xv,
     In (Entry (CFit m x y_train ep bs (Some (xv, y_test))) None)
        (log (snd r))).
Proof.
  intros [-> | ->].
  all: unfold preprocesses_images, fit_gets_labels.
  all: exec; intros Hl; simplify_eq.
  all: (split; [solve_entries | split; [solve_entries | split; [solve_entries|]]]).
  all: intros Hok; try discriminate Hok.
  all: do 5 eexists; repeat (first [left; reflexivity | right]).
Qed.

(** C2.  Running convert_model.py against a valid checkpoint (one that
    loads, to a model with at least one weight-data file) to completion
    leaves [public/model] a directory that holds the topology descriptor
    [model.json] of that model and at least one of its weight-data
    files.  Holds for every library whose converter meets
    [save_keras_model_contract]. *)
Theorem convert_model_py_writes_artifacts
    (a : list string) (e : gmap string string) (f : fsys) (l : LState K)
    (m : Model K) (l1 : LState K) :
  save_keras_model_contract K ->
  load_model K "mnist_model/model.h5" (f, l) = (inr m, l1) ->
  weight_files K l1 m <> [] ->
  fst (run K (convert_model_py K) a e f l) = inr tt ->
  let f' := fs (snd (run K (convert_model_py K) a e f l)) in
  f' !! "public/model" = Some Dir /\
  f' !! "public/model/model.json" = Some (File (topology_json K l1 m)) /\
  exists n c, In (n, c) (weight_files K l1 m) /\
              f' !! path_join "public/model" n = Some (File c).
Proof.
  intros Hc. exec; intros Hl; simplify_eq; intros Hw Hok; simplify_eq.
  apply Hc in Hconv as (Hdir & Hjson & Hfiles).
  split; [exact Hdir|]. split; [exact Hjson|].
  destruct (weight_files K l1 m) as [|[n c] rest]; [contradiction|].
  exists n, c. split; [now left|].
  apply Forall_inv in Hfiles. exact Hfiles.
Qed.

(** C10.  Outputs that are already present do not make a rerun fail.
    With [mnist_model] a directory and a checkpoint in it, the
    [os.makedirs] call of mnist.py does not raise, the run ends as it
    would without the old checkpoint, and when it completes the file
    holds the new checkpoint.  With [public/model] a directory and an
    artifact in it, the same holds for convert_model.py and the new
    [model.json].  Relies on [exist_ok=True] in the scripts and on the
    overwrite contracts of [model.save] and of the converter. *)
Theorem rerun_over_existing_outputs
    (a : list string) (e : gmap string string) (f : fsys) (l : LState K) :
  (save_contract K -> save_overwrites K ->
   forall c,
     f !! "mnist_model" = Some Dir ->
     f !! "mnist_model/model.h5" = Some (File c) ->
     let r := run K (mnist_py K) a e f l in
     Forall (fun ent => kind_of (what ent) = KMakedirs -> raised ent = None)
            (log (snd r)) /\
     fst r = fst (run K (mnist_py K) a e (delete "mnist_model/model.h5" f) l) /\
     (fst r = inr tt ->
      exists m x y v l3 l4,
        fit K m x y 3 (Some 32) v l3 = (inr tt, l4) /\
        fs (snd r) !! "mnist_model/model.h5" =
          Some (File (h5_bytes K l4 m)))) /\
  (save_keras_model_contract K -> save_keras_model_overwrites K ->
   load_model_local K ->
   forall n c,
     f !! "public/model" = Some Dir ->
     f !! path_join "public/model" n = Some (File c) ->
     let r := run K (convert_model_py K) a e f l in
     Forall (fun ent => kind_of (what ent) = KMakedirs -> raised ent = None)
            (log (snd r)) /\
     fst r = fst (run K (convert_model_py K) a e
                      (delete (path_join "public/model" n) f) l) /\
     (fst r = inr tt ->
      exists m l1,
        load_model K "mnist_model/model.h5" (f, l) = (inr m, l1) /\
        fs (snd r) !! "public/model/model.json" =
          Some (File (topology_json K l1 m)))).
Proof.
  split.
  - intros Hsave Hover c Hdir Hfile. cbv zeta.
    assert (Hdir' : delete "mnist_model/model.h5" f !! "mnist_model" = Some Dir).
    { rewrite lookup_delete_ne by discriminate. exact Hdir. }
    split; [|split].
    + exec; try solve_entries.
      all: rewrite makedirs_mnist_model_exists in Hmk by exact Hdir;
        discriminate Hmk.
    + exec.
      all: rewrite ?makedirs_mnist_model_exists in * by assumption.
      all: simplify_eq; cbn; repeat next_call; try reflexivity.
      all: match goal with
           | H1 : save K ?m ?p (?g, ?l3) = _,
             H2 : save K ?m ?p (delete ?p ?g, ?l3) = _ |- _ =>
               pose proof (Hover m p g l3 c Hfile) as Heq;
               rewrite H1, H2 in Heq; cbn in Heq; simplify_eq
           end.
      all: reflexivity.
    + exec; intros Hok; try discriminate Hok.
      rewrite makedirs_mnist_model_exists in Hmk by exact Hdir.
      simplify_eq. apply Hsave in Hsave0. subst.
      do 6 eexists. split; [exact Hfit|]. apply lookup_insert_eq.
  - intros Hconv Hover Hlocal n c Hdir Hfile. cbv zeta.
    split; [|split].
    + exec; try solve_entries.
      all: rewrite makedirs_public_model_present in Hmk by exact Hdir;
        discriminate Hmk.
    + unfold_script.
      rewrite (Hlocal "mnist_model/model.h5"
                 (delete (path_join "public/model" n) f) f l)
        by (apply lookup_delete_ne; discriminate).
      next_call; [reflexivity|].
      rewrite (makedirs_public_model_delete f n Hdir).
      rewrite (makedirs_public_model_present f Hdir).
      assert (Hf1 : exists f1,
                 (if path_exists f "public" then f
                  else <["public" := Dir]> f) = f1 /\
                 f1 !! path_join "public/model" n = Some (File c)).
      { eexists. split; [reflexivity|].
        destruct (path_exists f "public"); [exact Hfile|].
        rewrite lookup_insert_ne by discriminate. exact Hfile. }
      destruct Hf1 as [f1 [-> Hf1]]. cbn.
      pose proof (Hover m "public/model" n f1 l0 c Hf1) as Heq.
      revert Heq. repeat next_call; intros Heq; simplify_eq; reflexivity.
    + exec; intros Hok; try discriminate Hok.
      apply Hconv in Hconv0 as (_ & Hjson & _).
      do 2 eexists. split; [reflexivity|exact Hjson].
Qed.

End Claims.

(** ** The last layer of both models *)

Lemma final_layer_is_softmax :
  last mnist_py_layers = Some (Dense 10 "softmax") /\
  last train_mnist_model_py_layers = Some (Dense 10 "softmax").
Proof. split; reflexivity. Qed.

(** ** The small implementation meets the contracts *)

Lemma path_join_neq (d n : string) : path_join d n <> d.
Proof.
  unfold path_join. induction d as [|ch d IH]; cbn.
  - discriminate.
  - intros [= H]. exact (IH H).
Qed.

Lemma path_join_inj (d n n' : string) :
  path_join d n = path_join d n' -> n = n'.
Proof.
  unfold path_join. induction d as [|ch d IH]; cbn.
  - now intros [= H].
  - intros [= H]. exact (IH H).
Qed.

Lemma path_isdir_delete_file (f : fsys) (p q : string) (c : blob) :
  f !! p = Some (File c) -> path_isdir (delete p f) q = path_isdir f q.
Proof.
  intros Hp. unfold path_isdir.
  destruct (String.eqb q ""); [reflexivity|].
  destruct (decide (p = q)) as [<-|Hne].
  - now rewrite lookup_delete_eq, Hp.
  - now rewrite lookup_delete_ne.
Qed.

Lemma toy_save_contract : save_contract Toy.keras.
Proof.
  intros m p f l f' l'. cbn. unfold Toy.t_save.
  destruct (path_isdir f (path_split p).1 && negb (path_isdir f p));
    intros [= <- <-]; reflexivity.
Qed.

Lemma toy_save_overwrites : save_overwrites Toy.keras.
Proof.
  intros m p f l c Hp. cbn. unfold Toy.t_save.
  rewrite !(path_isdir_delete_file f p _ c Hp).
  destruct (path_isdir f (path_split p).1 && negb (path_isdir f p));
    reflexivity.
Qed.

Lemma toy_load_model_contract : load_model_contract Toy.keras.
Proof.
  intros p f l Hp. cbn. unfold Toy.t_load_model. rewrite Hp. eauto.
Qed.

Lemma toy_load_model_local : load_model_local Toy.keras.
Proof.
  intros p f f' l Hp. cbn. unfold Toy.t_load_model. now rewrite Hp.
Qed.

Lemma toy_save_keras_model_contract : save_keras_model_contract Toy.keras.
Proof.
  intros m d f l f' l'. cbn. unfold Toy.t_save_keras_model.
  assert (Hne : forall n, d <> path_join d n).
  { intros n H. symmetry in H. exact (path_join_neq d n H). }
  assert (Hfiles : path_join d "model.json" <>
                   path_join d "group1-shard1of1.bin").
  { intros H. apply path_join_inj in H. discriminate H. }
  destruct (f !! d) as [[|c]|]; intros [= <- <-].
  all: split; [apply lookup_insert_eq|].
  all: split; [rewrite lookup_insert_ne by apply Hne; apply lookup_insert_eq|].
  all: repeat constructor; cbn.
  all: rewrite lookup_insert_ne by apply Hne.
  all: rewrite lookup_insert_ne by exact Hfiles.
  all: apply lookup_insert_eq.
Qed.

Lemma toy_save_keras_model_overwrites : save_keras_model_overwrites Toy.keras.
Proof.
  intros m d n f l c Hq. cbn. unfold Toy.t_save_keras_model.
  rewrite lookup_delete_ne by apply path_join_neq.
  destruct (f !! d) as [[|c']|]; reflexivity.
Qed.

(** ** The theorems on concrete runs *)

Lemma mnist_py_writes_checkpoint_witness :
  save_contract Toy.keras /\
  fst (run Toy.keras (mnist_py Toy.keras) [] ∅ ∅ []) = inr tt /\
  let f' := fs (snd (run Toy.keras (mnist_py Toy.keras) [] ∅ ∅ [])) in
  f' !! "mnist_model" = Some Dir /\
  (exists m x y v l3 l4,
      fit Toy.keras m x y 3 (Some 32) v l3 = (inr tt, l4) /\
      f' !! "mnist_model/model.h5" = Some (File (h5_bytes Toy.keras l4 m))) /\
  (forall p, p <> "mnist_model" -> p <> "mnist_model/model.h5" ->
             f' !! p = (∅ : fsys) !! p).
Proof.
  split; [exact toy_save_contract|].
  split; [vm_compute; reflexivity|].
  apply (mnist_py_writes_checkpoint Toy.keras [] ∅ ∅ []).
  - exact toy_save_contract.
  - vm_compute. reflexivity.
Defined.

Lemma convert_model_py_writes_artifacts_witness :
  let f := Toy.tree_with_checkpoint in
  let r := run Toy.keras (convert_model_py Toy.keras) [] ∅ f [] in
  save_keras_model_contract Toy.keras /\
  load_model Toy.keras "mnist_model/model.h5" (f, []) = (inr 0%nat, [(3%nat, 0)]) /\
  weight_files Toy.keras [(3%nat, 0)] 0%nat <> [] /\
  fst r = inr tt /\
  fs (snd r) !! "public/model" = Some Dir /\
  fs (snd r) !! "public/model/model.json" =
    Some (File (topology_json Toy.keras [(3%nat, 0)] 0%nat)) /\
  exists n c, In (n, c) (weight_files Toy.keras [(3%nat, 0)] 0%nat) /\
              fs (snd r) !! path_join "public/model" n = Some (File c).
Proof.
  cbv zeta.
  assert (Hload : load_model Toy.keras "mnist_model/model.h5"
                    (Toy.tree_with_checkpoint, []) = (inr 0%nat, [(3%nat, 0)]))
    by (vm_compute; reflexivity).
  assert (Hw : weight_files Toy.keras [(3%nat, 0)] 0%nat <> [])
    by (vm_compute; discriminate).
  assert (Hok : fst (run Toy.keras (convert_model_py Toy.keras) [] ∅
                         Toy.tree_with_checkpoint []) = inr tt)
    by (vm_compute; reflexivity).
  split; [exact toy_save_keras_model_contract|].
  split; [exact Hload|]. split; [exact Hw|]. split; [exact Hok|].
  exact (convert_model_py_writes_artifacts Toy.keras [] ∅
           Toy.tree_with_checkpoint [] 0%nat [(3%nat, 0)]
           toy_save_keras_model_contract Hload Hw Hok).
Defined.

Lemma failures_end_the_run_witness :
  let r3 := run Toy.keras (convert_model_py Toy.keras) [] ∅ ∅ [] in
  load_model_contract Toy.keras /\
  (∅ : fsys) !! "mnist_model/model.h5" = None /\
  exists ex,
    fst r3 = inl ex /\
    fs (snd r3) = ∅ /\
    kinds (log (snd r3)) = [KPrint; KLoadModel] /\
    last (log (snd r3)) =
      Some (Entry (CLoadModel "mnist_model/model.h5") (Some ex)).
Proof.
  cbv zeta.
  split; [exact toy_load_model_contract|].
  split; [reflexivity|].
  destruct (failures_end_the_run Toy.keras [] ∅ ∅ []) as (_ & _ & _ & H).
  exact (H toy_load_model_contract eq_refl).
Defined.

Lemma preprocessor_rescales_pixels_witness :
  let lg := log (snd (run Toy.keras (mnist_py Toy.keras) [] ∅ ∅ [])) in
  (0 <= 128 <= 255 /\ in_unit_interval (preprocess_pixel 128)) /\
  (load_data Toy.keras [] = (inr Toy.mnist, []) /\
   nd_Forall (fun p => 0 <= p <= 255) (fst (fst Toy.mnist)) /\
   nd_Forall (fun p => 0 <= p <= 255) (fst (snd Toy.mnist)) /\
   fst (run Toy.keras (mnist_py Toy.keras) [] ∅ ∅ []) = inr tt /\
   fit_gets_preprocessed (fst (fst Toy.mnist)) (fst (snd Toy.mnist)) lg /\
   nd_Forall in_unit_interval
     (nd_map preprocess_pixel (fst (fst Toy.mnist))) /\
   nd_Forall in_unit_interval
     (nd_map preprocess_pixel (fst (snd Toy.mnist))) /\
   In (Entry (CAstype (fst (fst Toy.mnist)) "float32") None) lg /\
   In (Entry (CTrueDiv (np_astype_float32 (fst (fst Toy.mnist))) lit_255)
             None) lg /\
   In (Entry (CAstype (fst (snd Toy.mnist)) "float32") None) lg /\
   In (Entry (CTrueDiv (np_astype_float32 (fst (snd Toy.mnist))) lit_255)
             None) lg /\
   exists m ep bs,
     In (Entry (CFit m (nd_map preprocess_pixel (fst (fst Toy.mnist))) [7]
                     ep bs
                     (Some (nd_map preprocess_pixel (fst (snd Toy.mnist)),
                            [2])))
               None) lg).
Proof.
  cbv zeta.
  destruct (preprocessor_rescales_pixels Toy.keras) as [Hpix Hrun].
  assert (Hr1 : nd_Forall (fun p => 0 <= p <= 255) (fst (fst Toy.mnist))).
  { repeat constructor; cbn; lia. }
  assert (Hr2 : nd_Forall (fun p => 0 <= p <= 255) (fst (snd Toy.mnist))).
  { repeat constructor; cbn; lia. }
  assert (Hok : fst (run Toy.keras (mnist_py Toy.keras) [] ∅ ∅ []) = inr tt)
    by (vm_compute; reflexivity).
  split.
  - split; [lia|]. apply Hpix. lia.
  - destruct (Hrun (mnist_py Toy.keras) [] ∅ ∅ []
                [ [ [0; 255]; [128; 1] ] ] [7] [ [ [64; 200]; [3; 17] ] ] [2] []
                (or_introl eq_refl) eq_refl) as (_ & Hfit & H1 & H2 & Hex).
    split; [reflexivity|]. split; [exact Hr1|]. split; [exact Hr2|].
    split; [exact Hok|].
    split; [exact Hfit|]. split; [exact (H1 Hr1)|]. split; [exact (H2 Hr2)|].
    exact (Hex Hok).
Defined.

Lemma scripts_run_top_to_bottom_witness :
  let r1 := run Toy.keras (mnist_py Toy.keras) [] ∅ ∅ [] in
  let r2 := run Toy.keras (train_mnist_model_py Toy.keras) [] ∅ ∅ [] in
  (fst r1 = inr tt /\
   stages (kinds (log (snd r1))) =
     [Loading; Preprocessing; Building; Training; Export]) /\
  (fst r2 = inr tt /\
   stages (kinds (log (snd r2))) =
     [Loading; Preprocessing; Building; Training; Export]).
Proof.
  cbv zeta.
  destruct (scripts_run_top_to_bottom Toy.keras [] ∅ ∅ [])
    as ((_ & _ & _ & _ & H1) & (_ & _ & _ & _ & H2) & _).
  assert (Hok1 : fst (run Toy.keras (mnist_py Toy.keras) [] ∅ ∅ []) = inr tt)
    by (vm_compute; reflexivity).
  assert (Hok2 : fst (run Toy.keras (train_mnist_model_py Toy.keras) [] ∅ ∅ [])
                 = inr tt)
    by (vm_compute; reflexivity).
  split; (split; [assumption|]); [exact (H1 Hok1)|exact (H2 Hok2)].
Defined.

Lemma labels_reach_training_unchanged_witness :
  let r := run Toy.keras (train_mnist_model_py Toy.keras) [] ∅ ∅ [] in
  load_data Toy.keras [] = (inr Toy.mnist, []) /\
  fst r = inr tt /\
  fit_gets_labels [7] [2] (log (snd r)) /\
  exists m x ep bs xv,
    In (Entry (CFit m x [7] ep bs (Some (xv, [2]))) None) (log (snd r)).
Proof.
  cbv zeta.
  assert (Hok : fst (run Toy.keras (train_mnist_model_py Toy.keras) [] ∅ ∅ [])
                = inr tt)
    by (vm_compute; reflexivity).
  destruct (labels_reach_training_unchanged Toy.keras [] ∅ ∅ []
              [ [ [0; 255]; [128; 1] ] ] [ [ [64; 200]; [3; 17] ] ] [7] [2] []
              (train_mnist_model_py Toy.keras)
              (or_intror eq_refl) eq_refl) as (_ & Hlab & _ & Hfit).
  split; [reflexivity|]. split; [exact Hok|].
  split; [exact Hlab|exact (Hfit Hok)].
Defined.

Lemma rerun_over_existing_outputs_witness :
  let f := Toy.tree_with_outputs in
  let r := run Toy.keras (mnist_py Toy.keras) [] ∅ f [] in
  let r' := run Toy.keras (convert_model_py Toy.keras) [] ∅ f [] in
  (f !! "mnist_model" = Some Dir /\
   f !! "mnist_model/model.h5" =
     Some (File [Byte.x09; Byte.x09; Byte.x09]) /\
   fst r = inr tt /\
   fst (run Toy.keras (mnist_py Toy.keras) [] ∅
            (delete "mnist_model/model.h5" f) []) = inr tt /\
   fs (snd r) !! "mnist_model/model.h5" =
     Some (File [Byte.x04; Byte.x03])) /\
  (f !! "public/model" = Some Dir /\
   f !! path_join "public/model" "model.json" = Some (File [Byte.x07]) /\
   fst r' = inr tt /\
   fst (run Toy.keras (convert_model_py Toy.keras) [] ∅
            (delete (path_join "public/model" "model.json") f) []) = inr tt /\
   fs (snd r') !! "public/model/model.json" = Some (File [Byte.x03])).
Proof.
  cbv zeta.
  destruct (rerun_over_existing_outputs Toy.keras [] ∅ Toy.tree_with_outputs [])
    as [H1 H2].
  assert (Hd1 : Toy.tree_with_outputs !! "mnist_model" = Some Dir)
    by (vm_compute; reflexivity).
  assert (Hf1 : Toy.tree_with_outputs !! "mnist_model/model.h5" =
                Some (File [Byte.x09; Byte.x09; Byte.x09]))
    by (vm_compute; reflexivity).
  assert (Hd2 : Toy.tree_with_outputs !! "public/model" = Some Dir)
    by (vm_compute; reflexivity).
  assert (Hf2 : Toy.tree_with_outputs !! path_join "public/model" "model.json" =
                Some (File [Byte.x07]))
    by (vm_compute; reflexivity).
  specialize (H1 toy_save_contract toy_save_overwrites _ Hd1 Hf1).
  specialize (H2 toy_save_keras_model_contract toy_save_keras_model_overwrites
                 toy_load_model_local _ _ Hd2 Hf2).
  cbv zeta in H1, H2.
  destruct H1 as (_ & Heq1 & _). destruct H2 as (_ & Heq2 & _).
  split.
  - split; [exact Hd1|]. split; [exact Hf1|].
    split; [vm_compute; reflexivity|].
    split; [rewrite <- Heq1; vm_compute; reflexivity|].
    vm_compute. reflexivity.
  - split; [exact Hd2|]. split; [exact Hf2|].
    split; [vm_compute; reflexivity|].
    split; [rewrite <- Heq2; vm_compute; reflexivity|].
    vm_compute. reflexivity.
Defined.


(** * Further properties of the scripts *)

(** ** What the scripts print *)

Section Output.

Context (K : Keras).

(** X1.  The [print] calls of mnist.py: every run prints the two version
    lines first, and the script prints "Model saved successfully!"
    exactly when the run completes; after a failure the script has not
    printed the success line. *)
Theorem mnist_py_prints
    (a : list string) (e : gmap string string) (f : fsys) (l : LState K) :
  let r := run K (mnist_py K) a e f l in
  printed (log (snd r)) =
    version_line "TensorFlow" (tf_version K) ::
    version_line "NumPy" (np_version K) ::
    match fst r with inr _ => [saved_line] | inl _ => [] end.
Proof.
  cbv zeta. exec; reflexivity.
Qed.

(** X2.  convert_model.py always prints the TensorFlow.js version line
    first, and prints "Model converted successfully!" exactly when the
    run completes. *)
Theorem convert_model_py_stdout
    (a : list string) (e : gmap string string) (f : fsys) (l : LState K) :
  let r := run K (convert_model_py K) a e f l in
  stdout (snd r) =
    version_line "TensorFlow.js" (tfjs_version K) ::
    match fst r with inr _ => [converted_line] | inl _ => [] end.
Proof.
  cbv zeta. exec; reflexivity.
Qed.

End Output.

(** ** The export step of train_mnist_model.py *)

Section TrainExport.

Context (K : Keras).

(** X3.  A run of train_mnist_model.py that completes leaves
    [public/model] a directory holding the topology descriptor and every
    weight-data file of the model that was built, compiled and fitted
    for 5 epochs, in the state [fit] returned it in.  The script itself
    never calls [os.makedirs], [model.save] or [print]: the directory is
    the converter's doing.  Holds for every library whose converter
    meets [save_keras_model_contract]. *)
Theorem train_mnist_model_py_exports
    (a : list string) (e : gmap string string) (f : fsys) (l : LState K) :
  save_keras_model_contract K ->
  fst (run K (train_mnist_model_py K) a e f l) = inr tt ->
  let r := run K (train_mnist_model_py K) a e f l in
  Forall (fun ent => kind_of (what ent) <> KMakedirs /\
                     kind_of (what ent) <> KSave /\
                     kind_of (what ent) <> KPrint) (log (snd r)) /\
  fs (snd r) !! "public/model" = Some Dir /\
  exists m x y v l2 l3 l4,
    compile K m "adam" "sparse_categorical_crossentropy" ["accuracy"] l2 =
      (inr tt, l3) /\
    fit K m x y 5 None v l3 = (inr tt, l4) /\
    fs (snd r) !! "public/model/model.json" =
      Some (File (topology_json K l4 m)) /\
    Forall (fun nc =>
              fs (snd r) !! path_join "public/model" (fst nc) =
                Some (File (snd nc)))
           (weight_files K l4 m).
Proof.
  intros Hc. exec; intros Hok; try discriminate Hok.
  apply Hc in Hconv as (Hdir & Hjson & Hfiles).
  split; [repeat (apply List.Forall_cons;
                  [split; [discriminate|split; discriminate]|]);
          apply List.Forall_nil|].
  split; [exact Hdir|].
  do 7 eexists. split; [exact Hcompile|]. split; [exact Hfit|].
  split; [exact Hjson|exact Hfiles].
Qed.

End TrainExport.

Lemma train_mnist_model_py_exports_witness :
  let r := run Toy.keras (train_mnist_model_py Toy.keras) [] ∅ ∅ [] in
  save_keras_model_contract Toy.keras /\
  fst r = inr tt /\
  fs (snd r) !! "public/model" = Some Dir /\
  fs (snd r) !! "public/model/model.json" = Some (File [Byte.x0a]).
Proof.
  cbv zeta.
  assert (Hok : fst (run Toy.keras (train_mnist_model_py Toy.keras) [] ∅ ∅ [])
                = inr tt) by (vm_compute; reflexivity).
  destruct (train_mnist_model_py_exports Toy.keras [] ∅ ∅ []
              toy_save_keras_model_contract Hok) as (_ & Hdir & _).
  split; [exact toy_save_keras_model_contract|].
  split; [exact Hok|]. split; [exact Hdir|].
  vm_compute. reflexivity.
Defined.

(** ** When the output directory cannot be created *)

Lemma makedirs_mnist_model_file (f : fsys) (c : blob) :
  f !! "mnist_model" = Some (File c) ->
  os_makedirs "mnist_model" true f = inl (FileExistsError "mnist_model").
Proof.
  intros Hl. unfold os_makedirs. cbn -[try_mkdir].
  unfold try_mkdir, os_mkdir, path_exists, path_isdir. cbn.
  rewrite Hl. reflexivity.
Qed.

Section Blocked.

Context (K : Keras).

(** X4.  When [mnist_model] is a regular file, [exist_ok=True] does not
    help: a run of mnist.py never completes and never calls
    [model.save], it leaves the tree as it was, and if training gets to
    return the run ends with [FileExistsError] from [os.makedirs]. *)
Theorem mnist_py_output_directory_blocked
    (a : list string) (e : gmap string string) (f : fsys) (l : LState K)
    (c : blob) :
  f !! "mnist_model" = Some (File c) ->
  let r := run K (mnist_py K) a e f l in
  fst r <> inr tt /\
  fs (snd r) = f /\
  Forall (fun ent =>
            kind_of (what ent) <> KSave /\
            (kind_of (what ent) = KFit -> raised ent = None ->
             fst r = inl (FileExistsError "mnist_model") /\
             last (log (snd r)) =
               Some (Entry (CMakedirs "mnist_model" true)
                           (Some (FileExistsError "mnist_model")))))
         (log (snd r)).
Proof.
  intros Hfile. cbv zeta. exec.
  all: try (rewrite (makedirs_mnist_model_file f c Hfile) in Hmk;
            simplify_eq).
  all: split; [discriminate|]; split; [reflexivity|].
  all: repeat (apply List.Forall_cons;
               [split; [discriminate
                       |cbn; intros; simplify_eq; split; reflexivity]|]).
  all: apply List.Forall_nil.
Qed.

End Blocked.

Lemma mnist_py_output_directory_blocked_witness :
  let f := tree_mnist_model_is_file in
  let r := run Toy.keras (mnist_py Toy.keras) [] ∅ f [] in
  f !! "mnist_model" = Some (File [Byte.x01]) /\
  fst r = inl (FileExistsError "mnist_model") /\
  fs (snd r) = f.
Proof.
  cbv zeta.
  assert (Hf : tree_mnist_model_is_file !! "mnist_model" =
               Some (File [Byte.x01])) by (vm_compute; reflexivity).
  destruct (mnist_py_output_directory_blocked Toy.keras [] ∅
              tree_mnist_model_is_file [] _ Hf) as (_ & Hfs & _).
  split; [exact Hf|]. split; [vm_compute; reflexivity|exact Hfs].
Defined.

Lemma try_mkdir_cases (name : string) (f : fsys) :
  name <> "" ->
  try_mkdir name true f =
  match f !! name with
  | Some Dir => inr f
  | Some (File _) => inl (FileExistsError name)
  | None =>
      if path_isdir f (fst (path_split name)) then inr (<[name := Dir]> f)
      else if path_exists f (fst (path_split name))
           then inl (NotADirectoryError name)
           else inl (FileNotFoundError name)
  end.
Proof.
  intros Hname. unfold try_mkdir, os_mkdir.
  rewrite (path_exists_lookup f name Hname).
  unfold path_isdir at 2.
  destruct (String.eqb_spec name ""); [contradiction|].
  destruct (f !! name) as [[|c]|]; case_bool_decide as Hs; cbn;
    try reflexivity.
  - exfalso. apply Hs. eauto.
  - exfalso. apply Hs. eauto.
  - destruct Hs as [x Hx]. discriminate Hx.
  - destruct (path_isdir f (path_split name).1); [reflexivity|].
    destruct (path_exists f (path_split name).1); reflexivity.
Qed.

Lemma makedirs_public_model_file (f : fsys) (c : blob) :
  f !! "public" = Some Dir ->
  f !! "public/model" = Some (File c) ->
  os_makedirs "public/model" true f = inl (FileExistsError "public/model").
Proof.
  intros Hp Hpm. unfold os_makedirs. cbn -[try_mkdir path_exists].
  rewrite (path_exists_lookup f "public") by discriminate.
  rewrite Hp. cbn -[try_mkdir].
  rewrite try_mkdir_cases by discriminate. rewrite Hpm. reflexivity.
Qed.

Lemma makedirs_public_is_file (f : fsys) (c : blob) :
  f !! "public" = Some (File c) ->
  f !! "public/model" = None ->
  os_makedirs "public/model" true f = inl (NotADirectoryError "public/model").
Proof.
  intros Hp Hpm. unfold os_makedirs. cbn -[try_mkdir path_exists].
  rewrite (path_exists_lookup f "public") by discriminate.
  rewrite Hp. cbn -[try_mkdir].
  rewrite try_mkdir_cases by discriminate. rewrite Hpm.
  cbn -[path_exists]. unfold path_isdir. cbn -[path_exists].
  rewrite (path_exists_lookup f "public") by discriminate.
  rewrite Hp. reflexivity.
Qed.

Section ConvertDirectory.

Context (K : Keras).

(** X5.  The [os.makedirs] step of convert_model.py, once the checkpoint
    has loaded.  A regular file at [public/model] (inside a directory
    [public]) ends the run with [FileExistsError]; a regular file at
    [public] ends it with [NotADirectoryError]; in both cases the tree
    is as it was and the converter is not called.  When [os.makedirs]
    returns, [public/model] is a directory, no path other than [public]
    and [public/model] has changed, and the converter is called on the
    loaded model and that tree: its outcome and tree are the run's. *)
Theorem convert_model_py_output_directory
    (a : list string) (e : gmap string string) (f : fsys) (l : LState K)
    (m : Model K) (l1 : LState K) :
  load_model K "mnist_model/model.h5" (f, l) = (inr m, l1) ->
  let r := run K (convert_model_py K) a e f l in
  (forall c,
      f !! "public" = Some Dir -> f !! "public/model" = Some (File c) ->
      fst r = inl (FileExistsError "public/model") /\ fs (snd r) = f /\
      kinds (log (snd r)) = [KPrint; KLoadModel; KMakedirs]) /\
  (forall c,
      f !! "public" = Some (File c) -> f !! "public/model" = None ->
      fst r = inl (NotADirectoryError "public/model") /\ fs (snd r) = f /\
      kinds (log (snd r)) = [KPrint; KLoadModel; KMakedirs]) /\
  (forall f1,
      os_makedirs "public/model" true f = inr f1 ->
      f1 !! "public/model" = Some Dir /\
      (forall p, p <> "public" -> p <> "public/model" -> f1 !! p = f !! p) /\
      fst r = fst (save_keras_model K m "public/model" (f1, l1)) /\
      fs (snd r) = fst (snd (save_keras_model K m "public/model" (f1, l1))) /\
      log (snd r) !! 3%nat =
        Some (Entry (CSaveKerasModel m "public/model")
                    (outcome (fst (save_keras_model K m "public/model"
                                                    (f1, l1)))))).
Proof.
  intros Hload. cbv zeta. split; [|split].
  - intros c Hp Hpm. unfold_script. rewrite Hload. cbn.
    rewrite (makedirs_public_model_file f c Hp Hpm). cbn. repeat split.
  - intros c Hp Hpm. unfold_script. rewrite Hload. cbn.
    rewrite (makedirs_public_is_file f c Hp Hpm). cbn. repeat split.
  - intros f1 Hmk.
    destruct (makedirs_public_model f f1 Hmk) as [Hdir Hframe].
    split; [exact Hdir|]. split; [exact Hframe|].
    unfold_script. rewrite Hload. cbn. rewrite Hmk. cbn.
    destruct (save_keras_model K m "public/model" (f1, l1))
      as [[ex|[]] [f2 l2]]; cbn; repeat split.
Qed.

End ConvertDirectory.

Lemma convert_model_py_output_directory_witness :
  let f := tree_public_is_file in
  let g := tree_public_model_is_file in
  let h := Toy.tree_with_checkpoint in
  let rf := run Toy.keras (convert_model_py Toy.keras) [] ∅ f [] in
  let rg := run Toy.keras (convert_model_py Toy.keras) [] ∅ g [] in
  let rh := run Toy.keras (convert_model_py Toy.keras) [] ∅ h [] in
  (load_model Toy.keras "mnist_model/model.h5" (g, []) =
     (inr 0%nat, [(3%nat, 0)]) /\
   g !! "public" = Some Dir /\
   g !! "public/model" = Some (File [Byte.x01]) /\
   fst rg = inl (FileExistsError "public/model") /\ fs (snd rg) = g) /\
  (load_model Toy.keras "mnist_model/model.h5" (f, []) =
     (inr 0%nat, [(3%nat, 0)]) /\
   f !! "public" = Some (File [Byte.x01]) /\
   f !! "public/model" = None /\
   fst rf = inl (NotADirectoryError "public/model") /\ fs (snd rf) = f) /\
  (load_model Toy.keras "mnist_model/model.h5" (h, []) =
     (inr 0%nat, [(3%nat, 0)]) /\
   os_makedirs "public/model" true h =
     inr (<["public/model" := Dir]> (<["public" := Dir]> h)) /\
   fst rh = inr tt /\
   fs (snd rh) !! "public/model" = Some Dir).
Proof.
  cbv zeta.
  assert (Hlg : load_model Toy.keras "mnist_model/model.h5"
                  (tree_public_model_is_file, []) = (inr 0%nat, [(3%nat, 0)]))
    by (vm_compute; reflexivity).
  assert (Hlf : load_model Toy.keras "mnist_model/model.h5"
                  (tree_public_is_file, []) = (inr 0%nat, [(3%nat, 0)]))
    by (vm_compute; reflexivity).
  assert (Hlh : load_model Toy.keras "mnist_model/model.h5"
                  (Toy.tree_with_checkpoint, []) = (inr 0%nat, [(3%nat, 0)]))
    by (vm_compute; reflexivity).
  assert (Hg1 : tree_public_model_is_file !! "public" = Some Dir)
    by (vm_compute; reflexivity).
  assert (Hg2 : tree_public_model_is_file !! "public/model" =
                Some (File [Byte.x01])) by (vm_compute; reflexivity).
  assert (Hf1 : tree_public_is_file !! "public" = Some (File [Byte.x01]))
    by (vm_compute; reflexivity).
  assert (Hf2 : tree_public_is_file !! "public/model" = None)
    by (vm_compute; reflexivity).
  assert (Hmk : os_makedirs "public/model" true Toy.tree_with_checkpoint =
                inr (<["public/model" := Dir]>
                       (<["public" := Dir]> Toy.tree_with_checkpoint)))
    by (vm_compute; reflexivity).
  destruct (convert_model_py_output_directory Toy.keras [] ∅
              tree_public_model_is_file [] 0%nat [(3%nat, 0)] Hlg)
    as (Hg & _ & _).
  destruct (convert_model_py_output_directory Toy.keras [] ∅
              tree_public_is_file [] 0%nat [(3%nat, 0)] Hlf)
    as (_ & Hf & _).
  destruct (convert_model_py_output_directory Toy.keras [] ∅
              Toy.tree_with_checkpoint [] 0%nat [(3%nat, 0)] Hlh)
    as (_ & _ & Hh).
  destruct (Hg _ Hg1 Hg2) as (Hg3 & Hg4 & _).
  destruct (Hf _ Hf1 Hf2) as (Hf3 & Hf4 & _).
  destruct (Hh _ Hmk) as (_ & _ & Hh3 & Hh4 & _).
  split; [|split].
  - repeat (split; [assumption|]). assumption.
  - repeat (split; [assumption|]). assumption.
  - split; [exact Hlh|]. split; [exact Hmk|].
    split; [vm_compute; reflexivity|]. vm_compute. reflexivity.
Defined.

(** ** The preprocessor: order and accuracy *)

Lemma pixel_table_increasing : table_increasing pixel_table = true.
Proof. vm_compute. reflexivity. Qed.

Lemma in_pixel_table (p : Z) :
  0 <= p <= 255 -> In (p, preprocess_pixel p) pixel_table.
Proof.
  intros Hp. unfold pixel_table. apply in_map_iff.
  exists (Z.to_nat p). split.
  - rewrite Z2Nat.id by lia. reflexivity.
  - apply in_seq. lia.
Qed.

(** X6.  Rescaling keeps the order of pixel values and loses none: for
    [0 <= p < q <= 255] the float32 value of [p / 255.0] is strictly
    below that of [q / 255.0]; so distinct pixel values stay distinct.
    The ends are exact: 0 goes to 0.0 and 255 to 1.0. *)
Theorem preprocess_pixel_increasing :
  (forall p q, 0 <= p -> p < q -> q <= 255 ->
      f32_ltb (preprocess_pixel p) (preprocess_pixel q) = true) /\
  (forall p q, 0 <= p <= 255 -> 0 <= q <= 255 ->
      preprocess_pixel p = preprocess_pixel q -> p = q) /\
  preprocess_pixel 0 = F32.zero /\
  preprocess_pixel 255 = F32.one.
Proof.
  assert (Hlt : forall p q, 0 <= p -> p < q -> q <= 255 ->
             f32_ltb (preprocess_pixel p) (preprocess_pixel q) = true).
  { intros p q Hp Hpq Hq.
    pose proof pixel_table_increasing as Htbl. unfold table_increasing in Htbl.
    rewrite forallb_forall in Htbl.
    specialize (Htbl _ (in_pixel_table p ltac:(lia))).
    rewrite forallb_forall in Htbl.
    specialize (Htbl _ (in_pixel_table q ltac:(lia))).
    cbn [fst snd] in Htbl.
    destruct (Z.ltb_spec p q) as [_|Hge]; [exact Htbl|lia]. }
  assert (Hirr : forall p, 0 <= p <= 255 ->
             f32_ltb (preprocess_pixel p) (preprocess_pixel p) = false).
  { intros p Hp.
    assert (Hall : forallb (fun a => negb (f32_ltb (snd a) (snd a)))
                           pixel_table = true) by (vm_compute; reflexivity).
    rewrite forallb_forall in Hall.
    specialize (Hall _ (in_pixel_table p Hp)). cbn [snd] in Hall.
    now apply negb_true_iff in Hall. }
  split; [exact Hlt|]. split; [|split; vm_compute; reflexivity].
  intros p q Hp Hq Heq.
  destruct (Z.lt_trichotomy p q) as [Hpq|[Hpq|Hpq]]; [|exact Hpq|].
  - pose proof (Hlt p q ltac:(lia) Hpq ltac:(lia)) as H.
    rewrite Heq, Hirr in H by exact Hq. discriminate H.
  - pose proof (Hlt q p ltac:(lia) Hpq ltac:(lia)) as H.
    rewrite Heq, Hirr in H by exact Hq. discriminate H.
Qed.

Lemma preprocess_pixel_increasing_witness :
  0 <= 127 /\ 127 < 128 /\ 128 <= 255 /\
  f32_ltb (preprocess_pixel 127) (preprocess_pixel 128) = true.
Proof.
  destruct preprocess_pixel_increasing as [H _].
  split; [lia|]. split; [lia|]. split; [lia|].
  apply H; lia.
Defined.

Lemma all_pixels_accurate : forallb pixel_accurate (map Z.of_nat (seq 0 256)) = true.
Proof. vm_compute. reflexivity. Qed.

(** X7.  Rescaling is accurate to half a unit in the last place: for
    every pixel value [0 <= p <= 255] the float32 result of [p / 255.0]
    is a finite number within [2^-25] of the exact quotient [p / 255]. *)
Theorem preprocess_pixel_accurate (p : Z) :
  0 <= p <= 255 ->
  f32_is_finite (preprocess_pixel p) = true /\
  QArith_base.Qle (preprocess_error p) half_ulp_below_one.
Proof.
  intros Hp.
  pose proof all_pixels_accurate as Hall.
  rewrite forallb_forall in Hall.
  assert (Hin : In p (map Z.of_nat (seq 0 256))).
  { apply in_map_iff. exists (Z.to_nat p). split; [lia|].
    apply in_seq. lia. }
  apply Hall in Hin. unfold pixel_accurate in Hin.
  apply andb_prop in Hin as [Hfin Hle].
  split; [exact Hfin|]. apply QArith_base.Qle_bool_iff. exact Hle.
Qed.

Lemma preprocess_pixel_accurate_witness :
  0 <= 200 <= 255 /\
  f32_is_finite (preprocess_pixel 200) = true /\
  QArith_base.Qle (preprocess_error 200) half_ulp_below_one.
Proof.
  split; [lia|]. apply preprocess_pixel_accurate. lia.
Defined.

(** ** mnist.py, then convert_model.py *)

Section Pipeline.

Context (K : Keras).

(** X8.  The two scripts of docs/jobs/ai fit together: the path mnist.py
    saves to is the path convert_model.py loads from.  After a run of
    mnist.py that completes, a run of convert_model.py from the tree it
    left loads the checkpoint without raising and goes on to
    [os.makedirs]; when that returns, the converter is called on the
    model that was loaded.  Holds for every library whose [model.save]
    meets [save_contract] and whose [load_model] accepts what
    [model.save] wrote. *)
Theorem checkpoint_reaches_converter
    (a a' : list string) (e e' : gmap string string) (f : fsys)
    (l l' : LState K) :
  save_contract K ->
  load_model_accepts_saved K ->
  fst (run K (mnist_py K) a e f l) = inr tt ->
  let f1 := fs (snd (run K (mnist_py K) a e f l)) in
  let r2 := run K (convert_model_py K) a' e' f1 l' in
  exists m l1,
    load_model K "mnist_model/model.h5" (f1, l') = (inr m, l1) /\
    log (snd r2) !! 1%nat =
      Some (Entry (CLoadModel "mnist_model/model.h5") None) /\
    exists o,
      log (snd r2) !! 2%nat = Some (Entry (CMakedirs "public/model" true) o) /\
      (o = None ->
       exists o',
         log (snd r2) !! 3%nat =
           Some (Entry (CSaveKerasModel m "public/model") o')).
Proof.
  intros Hs Ha. exec; intros Hok; try discriminate Hok.
  all: match goal with
       | H : save K _ _ _ = _ |- _ => apply Hs in H; subst
       end.
  all: match goal with
       | H : load_model K _ (?g, _) = _ |- _ =>
           destruct (Ha "mnist_model/model.h5" g l3 m l'
                        (lookup_insert_eq _ _ _)) as (m' & l1' & Hload');
           rewrite H in Hload'; simplify_eq
       end.
  all: do 2 eexists; split; [reflexivity|]; split; [reflexivity|].
  all: eexists; split; [reflexivity|]; cbn.
  all: intros Ho; try discriminate Ho; eauto.
Qed.

End Pipeline.

Lemma toy_load_model_accepts_saved : load_model_accepts_saved Toy.keras.
Proof.
  intros p f l m l' Hp. cbn. unfold Toy.t_load_model. rewrite Hp. eauto.
Qed.

Lemma checkpoint_reaches_converter_witness :
  let f1 := fs (snd (run Toy.keras (mnist_py Toy.keras) [] ∅ ∅ [])) in
  let r2 := run Toy.keras (convert_model_py Toy.keras) [] ∅ f1 [] in
  save_contract Toy.keras /\
  load_model_accepts_saved Toy.keras /\
  fst (run Toy.keras (mnist_py Toy.keras) [] ∅ ∅ []) = inr tt /\
  exists m l1,
    load_model Toy.keras "mnist_model/model.h5" (f1, []) = (inr m, l1) /\
    log (snd r2) !! 1%nat =
      Some (Entry (CLoadModel "mnist_model/model.h5") None) /\
    exists o,
      log (snd r2) !! 2%nat = Some (Entry (CMakedirs "public/model" true) o) /\
      (o = None ->
       exists o',
         log (snd r2) !! 3%nat =
           Some (Entry (CSaveKerasModel m "public/model") o')).
Proof.
  cbv zeta.
  assert (Hok : fst (run Toy.keras (mnist_py Toy.keras) [] ∅ ∅ []) = inr tt)
    by (vm_compute; reflexivity).
  split; [exact toy_save_contract|].
  split; [exact toy_load_model_accepts_saved|].
  split; [exact Hok|].
  exact (checkpoint_reaches_converter Toy.keras [] [] ∅ ∅ ∅ [] []
           toy_save_contract toy_load_model_accepts_saved Hok).
Defined.
